(** * Portfolio site: asset URL resolution, placeholder graphic, content data

    Shallow embedding of [src/app/core/assets.py] (class
    [ProfessionalAssetManager]) and of the asset and content classes of
    [src/main.py] ([AssetManager], [PortfolioData]).

    Python integers are [Z] and the arguments have the types of their
    annotations; Python strings are [string]; the [dict] returned by
    [cache_images] is a [gmap string (list string)].  The coroutines are
    run to completion one after the other, so an [async def] is a
    computation in a state-and-exception monad over a [World] that holds
    the entropy read by [random.randint], the text written by [print], the
    number of completed [asyncio.sleep] calls and a plan of injected
    faults.  [get_placeholder_svg] does no I/O and is a plain function;
    its divisions are float divisions, modelled as CPython performs
    them.  An f-string formats its fields from left to right and raises
    what the first failing field raises; an [int] of more than 4300
    digits cannot be formatted ([ValueError], CPython's default limit). *)

From Stdlib Require Import Bool ZArith String Ascii List Lia DecimalString DecimalPos DecimalZ.
From stdpp Require Import gmap strings list.

Local Open Scope string_scope.
Local Open Scope Z_scope.

(* stdpp freezes [String.append] under [simpl]; the proofs below unfold it. *)
#[local] Arguments String.append !s1 s2 : simpl nomatch.

(** ** Python values and primitives *)

Module Py.

(** Exceptions the modelled code can meet; all are subclasses of
    [Exception], so an [except Exception] clause catches each of them. *)
Inductive exn : Type :=
  | IndexError (msg : string)
  | ValueError (msg : string)
  | ZeroDivisionError (msg : string)
  | OverflowError (msg : string)
  | RuntimeError (msg : string).

(** [str(e)] as interpolated by [f"...{e}"]. *)
Definition exn_str (e : exn) : string :=
  match e with
  | IndexError m | ValueError m | ZeroDivisionError m
  | OverflowError m | RuntimeError m => m
  end.

(** The decimal text of an [int]: a minus sign for a negative one, then
    the digits. *)
Definition decimal (n : Z) : string := NilZero.string_of_int (Z.to_int n).

(** [sys.get_int_max_str_digits()], at its default. *)
Definition max_str_digits : Z := 4300.

(** Whether [n] has no more digits than the limit allows: an integer has
    more than 4300 digits exactly from [10^4300] on, whatever its sign.
    The size in bits is looked at first, which decides the everyday case
    at once: an integer of fewer than [3 * 4300] bits is below [8^4300],
    hence below [10^4300]. *)
Definition fits (n : Z) : bool :=
  if Z.log2 (Z.abs n) <? 3 * max_str_digits then true
  else Z.abs n <? 10 ^ max_str_digits.

Definition digit_limit : exn :=
  ValueError "Exceeds the limit (4300 digits) for integer string conversion; use sys.set_int_max_str_digits() to increase the limit".

(** [str(n)] for an [int], which is also how an f-string formats it:
    [ValueError] when [n] has more than 4300 digits. *)
Definition str_int (n : Z) : exn + string :=
  if fits n then inr (decimal n) else inl digit_limit.

(** [str(s)] for a [str]. *)
Definition str_str (s : string) : exn + string := inr s.

(** [a % b] on ints: the result has the sign of [b]. *)
Definition mod_int (a b : Z) : exn + Z :=
  if b =? 0 then inl (ZeroDivisionError "integer modulo by zero")
  else inr (a mod b).

(** [len(l)] *)
Definition len {A} (l : list A) : Z := Z.of_nat (length l).

(** [l[i]]: negative indices count from the end, anything else out of
    range raises [IndexError]. *)
Definition getitem {A} (l : list A) (i : Z) : exn + A :=
  let j := if i <? 0 then i + len l else i in
  if j <? 0 then inl (IndexError "list index out of range")
  else match nth_error l (Z.to_nat j) with
       | Some x => inr x
       | None => inl (IndexError "list index out of range")
       end.

(** [s.startswith(p)] *)
Fixpoint startswith (p s : string) : bool :=
  match p, s with
  | EmptyString, _ => true
  | String a p', String b s' => Ascii.eqb a b && startswith p' s'
  | String _ _, EmptyString => false
  end.

(** [p in s] *)
Fixpoint contains (p s : string) : bool :=
  startswith p s ||
  match s with
  | EmptyString => false
  | String _ s' => contains p s'
  end.

(** Number of positions of [s] at which [p] starts (overlaps counted). *)
Fixpoint occurrences (p s : string) : nat :=
  ((if startswith p s then 1 else 0) +
   match s with
   | EmptyString => 0
   | String _ s' => occurrences p s'
   end)%nat.

(** [s.replace(old, new)]: non-overlapping occurrences, left to right.
    [skip] counts the characters of a matched [old] still to be dropped. *)
Fixpoint replace_from (old new : string) (skip : nat) (s : string) : string :=
  match s with
  | EmptyString => EmptyString
  | String c s' =>
      match skip with
      | S k => replace_from old new k s'
      | O =>
          if startswith old s
          then new ++ replace_from old new (String.length old - 1) s'
          else String c (replace_from old new O s')
      end
  end.

(** With an empty [old], Python puts [new] before every character and at
    the end. *)
Fixpoint intersperse (new s : string) : string :=
  match s with
  | EmptyString => new
  | String c s' => new ++ String c (intersperse new s')
  end.

Definition replace (s old new : string) : string :=
  match old with
  | EmptyString => intersperse new s
  | _ => replace_from old new O s
  end.

(** [c in s] for one character. *)
Fixpoint has_char (c : ascii) (s : string) : bool :=
  match s with
  | EmptyString => false
  | String a s' => Ascii.eqb a c || has_char c s'
  end.

(** *** Floats, as far as [int / int] and [repr] need them *)

(** A finite binary64 value, [(-1)^fneg * fmant * 2^fexp]. *)
Record float : Type := mkFloat { fneg : bool; fmant : Z; fexp : Z }.

(** [num / den] rounded to the nearest integer, ties to even. *)
Definition round_half_even (num den : Z) : Z :=
  let q := num / den in
  let r := num mod den in
  if (den <? 2 * r) || ((den =? 2 * r) && Z.odd q) then q + 1 else q.

(** [x < y * 2^k] for either sign of [k]. *)
Definition lt_scaled (x y k : Z) : bool :=
  if 0 <=? k then x <? y * 2 ^ k else x * 2 ^ (- k) <? y.

(** [a / b] on ints: the exact quotient correctly rounded to binary64,
    [OverflowError] when it does not fit. *)
Definition truediv (a b : Z) : exn + float :=
  if b =? 0 then inl (ZeroDivisionError "division by zero")
  else
    let x := Z.abs a in
    let y := Z.abs b in
    let neg := xorb (a <? 0) (b <? 0) in
    if x =? 0 then inr (mkFloat neg 0 0)
    else
      let e0 := Z.log2 x - Z.log2 y - 53 in
      let e1 := if lt_scaled x y (e0 + 53) then e0 else e0 + 1 in
      let e := Z.max e1 (-1074) in
      let m := if 0 <=? e then round_half_even x (y * 2 ^ e)
               else round_half_even (x * 2 ^ (- e)) y in
      let e' := if m =? 2 ^ 53 then e + 1 else e in
      let m' := if m =? 2 ^ 53 then 2 ^ 52 else m in
      if 971 <? e'
      then inl (OverflowError "integer division result too large for a float")
      else inr (mkFloat neg m' e').

(** Least [j], counting up from the one given, with [q <= v * 10^j]. *)
Fixpoint first_scale (fuel : nat) (v q j : Z) : Z :=
  match fuel with
  | O => j
  | S n => if q <=? v * 10 ^ j then j else first_scale n v q (j + 1)
  end.

Definition ndigits (n : Z) : Z := Z.of_nat (String.length (decimal n)).

(** [floor (log10 (v / q))] for positive [v] and [q]. *)
Definition decimal_exponent (v q : Z) : Z :=
  if q <=? v then ndigits (v / q) - 1 else - first_scale 400 v q 1.

Fixpoint strip_zeros (fuel : nat) (d : Z) : Z :=
  match fuel with
  | O => d
  | S n =>
      if (d mod 10 =? 0) && negb (d =? 0) then strip_zeros n (d / 10) else d
  end.

(** The shortest decimal that reads back as the float [V / Q] with
    mantissa [m], and among the shortest the closest one.  [Low / Q] and
    [High / Q] bound the reals that round to the float; [k] is the number
    of digits tried.  The result is the digits as an integer with no
    trailing zero and the position of the decimal point, the value being
    [0.digits * 10^decpt]. *)
Fixpoint shortest_from (fuel : nat) (k m p V Q Low High : Z) : Z * Z :=
  let q := p - k + 1 in
  let A := if 0 <=? q then 10 ^ q * Q else Q in
  let B := if 0 <=? q then 1 else 10 ^ (- q) in
  let D0 := (V * B) / A in
  let D1 := D0 + 1 in
  let inside D :=
    if Z.even m then (Low * B <=? D * A) && (D * A <=? High * B)
    else (Low * B <? D * A) && (D * A <? High * B) in
  let pick D := (strip_zeros 400 D, ndigits D + q) in
  let nearest :=
    let below := V * B - D0 * A in
    let above := D1 * A - V * B in
    if (below <? above) || ((below =? above) && Z.even D0) then D0 else D1 in
  match fuel with
  | O => pick nearest
  | S n =>
      match inside D0, inside D1 with
      | true, true => pick nearest
      | true, false => pick D0
      | false, true => pick D1
      | false, false => shortest_from n (k + 1) m p V Q Low High
      end
  end.

Definition shortest (m e : Z) : Z * Z :=
  let pow := if 0 <=? e then 2 ^ e else 1 in
  let Q := 4 * (if 0 <=? e then 1 else 2 ^ (- e)) in
  let V := 4 * m * pow in
  let Low := V - (if (m =? 2 ^ 52) && (-1074 <? e) then pow else 2 * pow) in
  let High := V + 2 * pow in
  shortest_from 16 1 m (decimal_exponent V Q) V Q Low High.

Fixpoint zeros (n : nat) : string :=
  match n with
  | O => EmptyString
  | S k => String "0" (zeros k)
  end.

(** [s[:n]] and [s[n:]] *)
Definition take (n : nat) (s : string) : string := String.substring 0 n s.
Definition drop (n : nat) (s : string) : string :=
  String.substring n (String.length s - n) s.

(** [repr(x)] of a float, which is also what [f"{x}"] prints: the shortest
    digits, in exponent notation from [1e16] up and below [1e-4]. *)
Definition repr_float (x : float) : string :=
  let sign := if fneg x then "-" else "" in
  if fmant x =? 0 then sign ++ "0.0"
  else
    let (d, decpt) := shortest (fmant x) (fexp x) in
    let ds := decimal d in
    let n := Z.of_nat (String.length ds) in
    if (decpt <=? -4) || (16 <? decpt) then
      let ex := decpt - 1 in
      sign ++ take 1 ds ++ (if 1 <? n then "." ++ drop 1 ds else "") ++ "e" ++
      (if ex <? 0 then "-" else "+") ++
      (if Z.abs ex <? 10 then "0" else "") ++ decimal (Z.abs ex)
    else if decpt <=? 0 then
      sign ++ "0." ++ zeros (Z.to_nat (- decpt)) ++ ds
    else if n <=? decpt then
      sign ++ ds ++ zeros (Z.to_nat (decpt - n)) ++ ".0"
    else
      sign ++ take (Z.to_nat decpt) ds ++ "." ++ drop (Z.to_nat decpt) ds.

(** [str(x / 3)]-style fields: the division may raise before anything is
    formatted. *)
Definition str_float (r : exn + float) : exn + string :=
  match r with
  | inl e => inl e
  | inr x => inr (repr_float x)
  end.

(** The parts of an f-string: literal text, and replacement fields with
    the outcome of evaluating and formatting them. *)
Inductive part : Type :=
  | Lit (s : string)
  | Val (v : exn + string).

(** Evaluation of an f-string: the fields are evaluated and formatted from
    left to right, so the exception of the leftmost failing field is the
    one raised; otherwise the parts are joined. *)
Fixpoint fjoin (parts : list part) : exn + string :=
  match parts with
  | nil => inr EmptyString
  | Lit s :: rest =>
      match fjoin rest with
      | inl e => inl e
      | inr t => inr (s ++ t)
      end
  | Val (inl e) :: _ => inl e
  | Val (inr v) :: rest =>
      match fjoin rest with
      | inl e => inl e
      | inr t => inr (v ++ t)
      end
  end.

(** The double quote, and literals written with a backquote in its place. *)
Definition quote : ascii := ascii_of_nat 34.

Fixpoint dq (s : string) : string :=
  match s with
  | EmptyString => EmptyString
  | String c s' => String (if Ascii.eqb c "`" then quote else c) (dq s')
  end.

End Py.

(** ** The world and the monad of a coroutine run *)

Record World : Type := mkWorld {
  entropy : nat -> Z;      (* raw values behind [random.randint] *)
  draws : nat;             (* how many have been consumed *)
  faults : list bool;      (* one flag per fallible step: [true] forces an exception *)
  stdout : list string;    (* lines written by [print], oldest first *)
  sleeps : nat             (* completed [asyncio.sleep] calls *)
}.

Definition M (A : Type) : Type := World -> (Py.exn + A) * World.

Definition ret {A} (a : A) : M A := fun w => (inr a, w).
Definition bind {A B} (m : M A) (k : A -> M B) : M B :=
  fun w => match m w with
           | (inr a, w') => k a w'
           | (inl e, w') => (inl e, w')
           end.
(** [try: body except Exception as e: handler(e)] *)
Definition try_except {A} (body : M A) (handler : Py.exn -> M A) : M A :=
  fun w => match body w with
           | (inr a, w') => (inr a, w')
           | (inl e, w') => handler e w'
           end.
Definition lift {A} (r : Py.exn + A) : M A := fun w => (r, w).

Notation "'let!' x := m 'in' k" := (bind m (fun x => k))
  (at level 10, x name, m at level 100, k at level 200).
Notation "m >> k" := (bind m (fun _ => k))
  (at level 100, k at level 200, right associativity).

(** The steps that can be made to fail are the four of the resolution
    algorithm: category selection, token generation ([random.randint]),
    encoding ([str.replace]) and formatting of a URL (its f-string).  Each
    consumes one flag of the fault plan: [true] makes the step raise, which
    is how a test forces an encoding or formatting error; an exhausted plan
    means no fault.  Logging with [print] and sleeping always succeed. *)
Definition advance (w : World) : World :=
  mkWorld (entropy w) (draws w) (tl (faults w)) (stdout w) (sleeps w).

Definition step (what : string) : M unit :=
  fun w =>
    (if hd false (faults w)
     then inl (Py.RuntimeError ("forced failure: " ++ what))
     else inr tt,
     advance w).

(** [random.randint(a, b)]: an integer [N] with [a <= N <= b]. *)
Definition randint (a b : Z) : M Z :=
  step "random.randint" >>
  fun w =>
    if b <? a then (inl (Py.ValueError "empty range for randrange()"), w)
    else (inr (a + entropy w (draws w) mod (b - a + 1)),
          mkWorld (entropy w) (S (draws w)) (faults w) (stdout w) (sleeps w)).

(** [print(line)] *)
Definition print (line : string) : M unit :=
  fun w => (inr tt,
            mkWorld (entropy w) (draws w) (faults w) (stdout w ++ [line]) (sleeps w)).

(** [await asyncio.sleep(0.1)] *)
Definition sleep : M unit :=
  fun w => (inr tt,
            mkWorld (entropy w) (draws w) (faults w) (stdout w) (S (sleeps w))).

(** [s.replace(old, new)] as a fallible step. *)
Definition str_replace (s old new : string) : M string :=
  step "str.replace" >> ret (Py.replace s old new).

(** Evaluation of an f-string that builds a URL: a step that can be made
    to fail, then the fields from left to right. *)
Definition fstring (parts : list Py.part) : M string :=
  step "f-string" >> lift (Py.fjoin parts).

(** [range(n)] *)
Definition range (n : Z) : list Z := map Z.of_nat (seq 0 (Z.to_nat n)).

(** [l[index % len(l)]], the rotation lookup both resolvers start with. *)
Definition rotate {A} (l : list A) (index : Z) : M A :=
  step "category selection" >>
  let! k := lift (Py.mod_int index (Py.len l)) in
  lift (Py.getitem l k).

(** ** [app/core/assets.py]: class [ProfessionalAssetManager] *)

Module ProfessionalAssetManager.

Definition AI_CATEGORIES : list string :=
  [ "artificial intelligence";
    "machine learning";
    "data science";
    "neural network";
    "technology";
    "code";
    "algorithm";
    "robotics";
    "deep learning";
    "computer vision" ].

Definition FALLBACK_IMAGES : list string :=
  [ "https://picsum.photos/800/600?random=1";
    "https://picsum.photos/800/600?random=2";
    "https://picsum.photos/800/600?random=3";
    "https://picsum.photos/800/600?random=4";
    "https://picsum.photos/800/600?random=5" ].

(** The [try] suite of [get_ai_image]. *)
Definition get_ai_image_try (index width height : Z) : M string :=
  let! category := rotate AI_CATEGORIES index in
  let! seed := randint 1000 9999 in
  let! formatted_category := str_replace category " " "+" in
  let! img_url :=
    fstring [ Py.Lit "https://source.unsplash.com/"; Py.Val (Py.str_int width);
              Py.Lit "x"; Py.Val (Py.str_int height); Py.Lit "/?";
              Py.Val (Py.str_str formatted_category); Py.Lit "&sig=";
              Py.Val (Py.str_int seed) ] in
  sleep >>
  ret img_url.

(** The [except Exception as e] suite of [get_ai_image]. *)
Definition get_ai_image_except (index : Z) (e : Py.exn) : M string :=
  print ("Error fetching AI image: " ++ Py.exn_str e) >>
  let! fallback_index := lift (Py.mod_int index (Py.len FALLBACK_IMAGES)) in
  lift (Py.getitem FALLBACK_IMAGES fallback_index).

(** [get_ai_image(index=0, width=800, height=600)] *)
Definition get_ai_image (index width height : Z) : M string :=
  try_except (get_ai_image_try index width height)
             (get_ai_image_except index).

(** [get_hero_image(width=1200, height=600)] *)
Definition get_hero_image_try (width height : Z) : M string :=
  let! seed := randint 10000 99999 in
  fstring [ Py.Lit "https://source.unsplash.com/"; Py.Val (Py.str_int width);
            Py.Lit "x"; Py.Val (Py.str_int height);
            Py.Lit "/?artificial+intelligence+technology+code&sig=";
            Py.Val (Py.str_int seed) ].

(** The handler shared, up to its message, by [get_hero_image] and
    [get_profile_image].  The draw is the third field of the f-string, and
    fields are evaluated and formatted from left to right: the width and
    the height are formatted before the draw is made. *)
Definition picsum_except (what : string) (width height : Z) (e : Py.exn)
  : M string :=
  print ("Error fetching " ++ what ++ " image: " ++ Py.exn_str e) >>
  let! width_text := lift (Py.str_int width) in
  let! height_text := lift (Py.str_int height) in
  let! r := randint 1 1000 in
  fstring [ Py.Lit "https://picsum.photos/"; Py.Val (Py.str_str width_text);
            Py.Lit "/"; Py.Val (Py.str_str height_text); Py.Lit "?random=";
            Py.Val (Py.str_int r) ].

Definition get_hero_image (width height : Z) : M string :=
  try_except (get_hero_image_try width height)
             (picsum_except "hero" width height).

(** [get_profile_image(width=400, height=400)] *)
Definition get_profile_image_try (width height : Z) : M string :=
  let! seed := randint 5000 9999 in
  fstring [ Py.Lit "https://source.unsplash.com/"; Py.Val (Py.str_int width);
            Py.Lit "x"; Py.Val (Py.str_int height);
            Py.Lit "/?professional+portrait+technology&sig=";
            Py.Val (Py.str_int seed) ].

Definition get_profile_image (width height : Z) : M string :=
  try_except (get_profile_image_try width height)
             (picsum_except "profile" width height).

(** One pass of the inner loop of [cache_images]; [category_images] is the
    list built so far.  The only statement after the [append] is the sleep,
    so when the handler runs the list is still the one the pass started
    with. *)
Definition cache_item_try (category : string) (category_images : list string)
  : M (list string) :=
  let! seed := randint 1000 9999 in
  let! formatted_category := str_replace category " " "+" in
  let! img_url :=
    fstring [ Py.Lit "https://source.unsplash.com/800x600/?";
              Py.Val (Py.str_str formatted_category); Py.Lit "&sig=";
              Py.Val (Py.str_int seed) ] in
  sleep >>
  ret (category_images ++ [img_url])%list.

Definition cache_item_except (category : string) (i : Z)
    (category_images : list string) (e : Py.exn) : M (list string) :=
  print ("Error caching image for " ++ category ++ ": " ++ Py.exn_str e) >>
  let! fallback_index := lift (Py.mod_int i (Py.len FALLBACK_IMAGES)) in
  let! fallback := lift (Py.getitem FALLBACK_IMAGES fallback_index) in
  ret (category_images ++ [fallback])%list.

(** [for i in range(count): ...] *)
Fixpoint cache_category (category : string) (indices : list Z)
    (category_images : list string) : M (list string) :=
  match indices with
  | [] => ret category_images
  | i :: rest =>
      let! category_images' :=
        try_except (cache_item_try category category_images)
                   (cache_item_except category i category_images) in
      cache_category category rest category_images'
  end.

(** [for category in categories: ...] *)
Fixpoint cache_loop (categories : list string) (count : Z)
    (cached_images : gmap string (list string))
  : M (gmap string (list string)) :=
  match categories with
  | [] => ret cached_images
  | category :: rest =>
      let! category_images := cache_category category (range count) [] in
      cache_loop rest count (<[category := category_images]> cached_images)
  end.

(** [cache_images(categories, count=1)] *)
Definition cache_images (categories : list string) (count : Z)
  : M (gmap string (list string)) :=
  cache_loop categories count ∅.

(** The markup [get_placeholder_svg] joins once every replacement field
    has been converted to text: [w] and [h] are [{width}] and [{height}],
    [h3], [h23], [w3], [w23] the four quotients. *)
Definition svg_markup (w h h3 h23 w3 w23 text_color text : string) : string :=
  "<svg width='" ++ w ++ "' height='" ++ h ++
  "' xmlns='http://www.w3.org/2000/svg' viewBox='0 0 " ++ w ++ " " ++ h ++
  Py.dq "'>
  <defs>
    <linearGradient id=`grad` x1=`0%` y1=`0%` x2=`100%` y2=`100%`>
      <stop offset=`0%` style=`stop-color:#1a2980;stop-opacity:1` />
      <stop offset=`100%` style=`stop-color:#26d0ce;stop-opacity:1` />
    </linearGradient>
  </defs>
  <rect fill='url(#grad)' width='" ++ w ++ "' height='" ++ h ++ "'/>
  <text x='50%' y='50%' dominant-baseline='middle' text-anchor='middle' font-family='sans-serif' font-size='24' fill='" ++
  text_color ++ "'>" ++ text ++
  Py.dq "</text>
  <g fill=`none` stroke=`rgba(255,255,255,0.2)` stroke-width=`1`>
    <path d=`M0," ++ h3 ++ " L" ++ w ++ "," ++ h3 ++
  Py.dq "` />
    <path d=`M0," ++ h23 ++ " L" ++ w ++ "," ++ h23 ++
  Py.dq "` />
    <path d=`M" ++ w3 ++ ",0 L" ++ w3 ++ "," ++ h ++
  Py.dq "` />
    <path d=`M" ++ w23 ++ ",0 L" ++ w23 ++ "," ++ h ++
  Py.dq "` />
  </g>
</svg>".

(** [get_placeholder_svg(width, height, text="AI Image")]: no I/O, so the
    result is a value or the exception of the leftmost field that fails,
    the formatting of a huge width or height or a division that
    overflows.  Literals are the source's, with a backquote for each
    double quote. *)
Definition get_placeholder_svg (width height : Z) (text : string)
  : Py.exn + string :=
  let bg_color := "#1a2980" in
  let text_color := "#ffffff" in
  Py.fjoin
    [ Py.Lit "<svg width='";
      Py.Val (Py.str_int width);
      Py.Lit "' height='";
      Py.Val (Py.str_int height);
      Py.Lit "' xmlns='http://www.w3.org/2000/svg' viewBox='0 0 ";
      Py.Val (Py.str_int width);
      Py.Lit " ";
      Py.Val (Py.str_int height);
      Py.Lit (Py.dq "'>
  <defs>
    <linearGradient id=`grad` x1=`0%` y1=`0%` x2=`100%` y2=`100%`>
      <stop offset=`0%` style=`stop-color:#1a2980;stop-opacity:1` />
      <stop offset=`100%` style=`stop-color:#26d0ce;stop-opacity:1` />
    </linearGradient>
  </defs>
  <rect fill='url(#grad)' width='");
      Py.Val (Py.str_int width);
      Py.Lit "' height='";
      Py.Val (Py.str_int height);
      Py.Lit "'/>
  <text x='50%' y='50%' dominant-baseline='middle' text-anchor='middle' font-family='sans-serif' font-size='24' fill='";
      Py.Val (Py.str_str text_color);
      Py.Lit "'>";
      Py.Val (Py.str_str text);
      Py.Lit (Py.dq "</text>
  <g fill=`none` stroke=`rgba(255,255,255,0.2)` stroke-width=`1`>
    <path d=`M0,");
      Py.Val (Py.str_float (Py.truediv height 3));
      Py.Lit " L";
      Py.Val (Py.str_int width);
      Py.Lit ",";
      Py.Val (Py.str_float (Py.truediv height 3));
      Py.Lit (Py.dq "` />
    <path d=`M0,");
      Py.Val (Py.str_float (Py.truediv (height * 2) 3));
      Py.Lit " L";
      Py.Val (Py.str_int width);
      Py.Lit ",";
      Py.Val (Py.str_float (Py.truediv (height * 2) 3));
      Py.Lit (Py.dq "` />
    <path d=`M");
      Py.Val (Py.str_float (Py.truediv width 3));
      Py.Lit ",0 L";
      Py.Val (Py.str_float (Py.truediv width 3));
      Py.Lit ",";
      Py.Val (Py.str_int height);
      Py.Lit (Py.dq "` />
    <path d=`M");
      Py.Val (Py.str_float (Py.truediv (width * 2) 3));
      Py.Lit ",0 L";
      Py.Val (Py.str_float (Py.truediv (width * 2) 3));
      Py.Lit ",";
      Py.Val (Py.str_int height);
      Py.Lit (Py.dq "` />
  </g>
</svg>") ].

End ProfessionalAssetManager.

(** ** [main.py]: class [AssetManager] *)

Module AssetManager.

Definition AI_CATEGORIES : list string :=
  [ "artificial intelligence"; "machine learning"; "data science";
    "neural network"; "technology"; "code"; "algorithm"; "robotics" ].

Definition get_ai_image_try (index : Z) : M string :=
  let! category := rotate AI_CATEGORIES index in
  let! seed := randint 1000 9999 in
  let! img_url :=
    fstring [ Py.Lit "https://source.unsplash.com/800x600/?";
              Py.Val (Py.str_str category); Py.Lit "&sig=";
              Py.Val (Py.str_int seed) ] in
  sleep >>
  ret img_url.

Definition get_ai_image_except (e : Py.exn) : M string :=
  print ("Error fetching image: " ++ Py.exn_str e) >>
  let! r := randint 1 1000 in
  fstring [ Py.Lit "https://picsum.photos/800/600?random=";
            Py.Val (Py.str_int r) ].

(** [get_ai_image(index=0)] *)
Definition get_ai_image (index : Z) : M string :=
  try_except (get_ai_image_try index) get_ai_image_except.

Definition get_hero_image_try : M string :=
  let! seed := randint 10000 99999 in
  fstring [ Py.Lit "https://source.unsplash.com/1200x600/?artificial+intelligence+technology&sig=";
            Py.Val (Py.str_int seed) ].

Definition get_hero_image : M string :=
  try_except get_hero_image_try
    (fun e => print ("Error fetching hero image: " ++ Py.exn_str e) >>
              ret "https://picsum.photos/1200/600").

End AssetManager.

(** ** [main.py]: class [PortfolioData]

    The dictionaries with fixed string keys are records; the lists keep
    their order. *)

Module PortfolioData.

Record Skill : Type := mkSkill { skill_name : string; level : Z }.

Record Contact : Type := mkContact {
  email : string; linkedin : string; github : string; twitter : string
}.

Record Profile : Type := mkProfile {
  name : string;
  title : string;
  tagline : string;
  about : string;
  skills : list Skill;
  contact : Contact
}.

Record Project : Type := mkProject {
  project_title : string;
  description : string;
  technologies : list string;
  highlights : list string
}.

Definition get_profile : Profile :=
  {| name := "Alex Morgan";
     title := "Senior AI Engineer";
     tagline := "Building intelligent systems that solve real-world problems";
     about := "
                Experienced AI Engineer with 7+ years of expertise in machine learning, 
                deep learning, and natural language processing. Passionate about developing 
                AI solutions that drive business value and improve user experiences.
                
                My approach combines strong theoretical foundations with practical 
                implementation skills, allowing me to take projects from research to production.
            ";
     skills :=
       [ mkSkill "Machine Learning" 95;
         mkSkill "Deep Learning" 90;
         mkSkill "Natural Language Processing" 85;
         mkSkill "Computer Vision" 80;
         mkSkill "MLOps" 85;
         mkSkill "Python" 95;
         mkSkill "TensorFlow/PyTorch" 90;
         mkSkill "Data Engineering" 75 ];
     contact :=
       {| email := "alex.morgan@example.com";
          linkedin := "linkedin.com/in/alexmorgan";
          github := "github.com/alexmorgan-ai";
          twitter := "twitter.com/alexmorgan_ai" |} |}.

Definition get_projects : list Project :=
  [ {| project_title := "Conversational AI Assistant";
       description := "Developed an advanced conversational AI system using transformer-based architecture. The system handles complex queries with contextual understanding and maintains conversation history.";
       technologies :=
         [ "PyTorch";
           "Transformer Models";
           "FastAPI";
           "Redis";
           "Docker" ];
       highlights :=
         [ "Achieved 92% accuracy on intent recognition";
           "Reduced response latency by 40% through model optimization";
           "Implemented efficient context management for multi-turn conversations";
           "Deployed as a scalable microservice architecture" ] |};
    {| project_title := "Computer Vision for Manufacturing QA";
       description := "Built a real-time defect detection system for manufacturing quality assurance using computer vision and deep learning techniques.";
       technologies :=
         [ "TensorFlow";
           "OpenCV";
           "Kubernetes";
           "NVIDIA Triton";
           "Python" ];
       highlights :=
         [ "Reduced manual inspection time by 75%";
           "Improved defect detection accuracy to 98.5%";
           "Implemented distributed inference for high-throughput processing";
           "Created custom annotation tool for efficient data labeling" ] |};
    {| project_title := "Predictive Maintenance System";
       description := "Designed and implemented a predictive maintenance system for industrial equipment using time-series analysis and anomaly detection.";
       technologies :=
         [ "Scikit-learn";
           "Prophet";
           "Kafka";
           "Spark";
           "AWS" ];
       highlights :=
         [ "Reduced unplanned downtime by 35%";
           "Saved $1.2M annually in maintenance costs";
           "Processed 10TB+ of sensor data in real-time";
           "Developed custom feature extraction for multivariate time series" ] |};
    {| project_title := "Recommendation Engine for E-commerce";
       description := "Created a personalized recommendation engine for an e-commerce platform using collaborative filtering and content-based approaches.";
       technologies :=
         [ "Python";
           "PySpark";
           "Neo4j";
           "FastAPI";
           "React" ];
       highlights :=
         [ "Increased conversion rate by 23%";
           "Improved average order value by 15%";
           "Implemented hybrid recommendation approach with real-time updates";
           "Designed A/B testing framework for algorithm evaluation" ] |};
    {| project_title := "NLP for Automated Document Processing";
       description := "Developed an NLP system for automated document processing, classification, and information extraction from unstructured text.";
       technologies :=
         [ "Hugging Face Transformers";
           "spaCy";
           "Elasticsearch";
           "Flask";
           "Docker" ];
       highlights :=
         [ "Automated processing of 10,000+ documents daily";
           "Achieved 94% accuracy in document classification";
           "Reduced manual processing time by 80%";
           "Implemented custom named entity recognition for domain-specific extraction" ] |};
    {| project_title := "MLOps Platform Development";
       description := "Led the development of an internal MLOps platform for model training, deployment, monitoring, and lifecycle management.";
       technologies :=
         [ "Kubernetes";
           "TensorFlow Extended";
           "Prometheus";
           "Grafana";
           "Python" ];
       highlights :=
         [ "Reduced model deployment time from weeks to hours";
           "Implemented automated testing and validation pipelines";
           "Created comprehensive monitoring for model drift and performance";
           "Designed reproducible training workflows with version control" ] |} ].

End PortfolioData.

(** ** Notions the statements use *)

Section Notions.

Import ProfessionalAssetManager.

(** A fresh world in which no fault is injected, and one whose fault plan
    is [plan]. *)
Definition quiet (f : nat -> Z) : World := mkWorld f 0 [] [] 0.
Definition faulty (f : nat -> Z) (plan : list bool) : World :=
  mkWorld f 0 plan [] 0.


(** The world after a successful [random.randint]. *)
Definition drawn (w : World) : World :=
  mkWorld (entropy w) (S (draws w)) (faults w) (stdout w) (sleeps w).

Definition forced (what : string) : Py.exn :=
  Py.RuntimeError ("forced failure: " ++ what).

(** The token a [randint(a, b)] call would draw in world [w]. *)
Definition token (a b : Z) (w : World) : Z :=
  a + entropy w (draws w) mod (b - a + 1).

(** The URL [get_ai_image] formats once category and token are known. *)
Definition ai_url (width height : Z) (category : string) (seed : Z) : string :=
  "https://source.unsplash.com/" ++ Py.decimal width ++ "x" ++
  Py.decimal height ++ "/?" ++ Py.replace category " " "+" ++ "&sig=" ++
  Py.decimal seed.

(** The URL the resolver of [main.py] formats: the category goes in as it
    is. *)
Definition inline_ai_url (category : string) (seed : Z) : string :=
  "https://source.unsplash.com/800x600/?" ++ category ++ "&sig=" ++
  Py.decimal seed.

(** The URLs of the hero and profile resolvers once the token is known. *)
Definition hero_url (width height seed : Z) : string :=
  "https://source.unsplash.com/" ++ Py.decimal width ++ "x" ++
  Py.decimal height ++ "/?artificial+intelligence+technology+code&sig=" ++
  Py.decimal seed.

Definition profile_url (width height seed : Z) : string :=
  "https://source.unsplash.com/" ++ Py.decimal width ++ "x" ++
  Py.decimal height ++ "/?professional+portrait+technology&sig=" ++
  Py.decimal seed.

(** The URL one pass of the batch formats. *)
Definition batch_url (category : string) (seed : Z) : string :=
  "https://source.unsplash.com/800x600/?" ++ Py.replace category " " "+" ++
  "&sig=" ++ Py.decimal seed.

(** What one pass appends: a formatted URL whose token is in range, or the
    fallback entry of the pass. *)
Definition item_ok (category : string) (u : string) : Prop :=
  (exists seed, 1000 <= seed <= 9999 /\ u = batch_url category seed) \/
  In u FALLBACK_IMAGES.

(** The characters [str(n)] is made of. *)
Definition is_digit (c : ascii) : bool :=
  let n := nat_of_ascii c in (48 <=? n)%nat && (n <=? 57)%nat.

(** The characters of a float's text: digits, sign, point and exponent
    mark. *)
Definition float_char (c : ascii) : bool :=
  is_digit c || Ascii.eqb c "-" || Ascii.eqb c "." || Ascii.eqb c "e" ||
  Ascii.eqb c "+".

(** Text that opens no tag. *)
Definition plain (s : string) : Prop := Py.has_char "<" s = false.

(** Whether [p] starts at the head of [s ++ b] can be told from [s] alone:
    [Some d] when it can, with the answer [d]. *)
Fixpoint decide_prefix (p s : string) : option bool :=
  match p, s with
  | EmptyString, _ => Some true
  | String a p', String c s' =>
      if Ascii.eqb a c then decide_prefix p' s' else Some false
  | String _ _, EmptyString => None
  end.

(** Occurrences of [p] that start inside the literal [a], when none of
    them depends on what follows [a]. *)
Fixpoint occ_lit (p a : string) : option nat :=
  match a with
  | EmptyString => Some O
  | String _ a' =>
      match decide_prefix p a, occ_lit p a' with
      | Some d, Some n => Some ((if d then 1 else 0) + n)%nat
      | _, _ => None
      end
  end.

(** The markup before and after the text element. *)
Definition svg_head (w h : string) : string :=
  "<svg width='" ++ w ++ "' height='" ++ h ++
  "' xmlns='http://www.w3.org/2000/svg' viewBox='0 0 " ++ w ++ " " ++ h ++
  Py.dq "'>
  <defs>
    <linearGradient id=`grad` x1=`0%` y1=`0%` x2=`100%` y2=`100%`>
      <stop offset=`0%` style=`stop-color:#1a2980;stop-opacity:1` />
      <stop offset=`100%` style=`stop-color:#26d0ce;stop-opacity:1` />
    </linearGradient>
  </defs>
  <rect fill='url(#grad)' width='" ++ w ++ "' height='" ++ h ++ "'/>
  ".

Definition svg_tail (w h h3 h23 w3 w23 : string) : string :=
  Py.dq "
  <g fill=`none` stroke=`rgba(255,255,255,0.2)` stroke-width=`1`>
    <path d=`M0," ++ h3 ++ " L" ++ w ++ "," ++ h3 ++
  Py.dq "` />
    <path d=`M0," ++ h23 ++ " L" ++ w ++ "," ++ h23 ++
  Py.dq "` />
    <path d=`M" ++ w3 ++ ",0 L" ++ w3 ++ "," ++ h ++
  Py.dq "` />
    <path d=`M" ++ w23 ++ ",0 L" ++ w23 ++ "," ++ h ++
  Py.dq "` />
  </g>
</svg>".



End Notions.

(** ** Facts about the string primitives *)

Section StringFacts.

Lemma append_assoc (a b c : string) : (a ++ b) ++ c = a ++ (b ++ c).
Proof. induction a as [|x a IH]; simpl; [reflexivity | now rewrite IH]. Qed.

Lemma append_nil_r (s : string) : s ++ "" = s.
Proof. induction s as [|c s IH]; cbn; [reflexivity | now rewrite IH]. Qed.

Lemma append_inv_head (a b c : string) : a ++ b = a ++ c -> b = c.
Proof.
  induction a as [|x a IH]; simpl; intros H; [exact H |].
  injection H as H. auto.
Qed.

Lemma has_char_app c (a b : string) :
  Py.has_char c (a ++ b) = Py.has_char c a || Py.has_char c b.
Proof.
  induction a as [|x a IH]; simpl; [reflexivity |].
  now rewrite IH, orb_assoc.
Qed.

Lemma startswith_app (p s : string) : Py.startswith p (p ++ s) = true.
Proof.
  induction p as [|x p IH]; simpl; [reflexivity |].
  now rewrite Ascii.eqb_refl, IH.
Qed.

Lemma contains_app_r (p a b : string) :
  Py.contains p b = true -> Py.contains p (a ++ b) = true.
Proof.
  intros H. induction a as [|x a IH]; simpl; [exact H |].
  rewrite IH. apply orb_true_r.
Qed.

Lemma contains_here (p a b : string) : Py.contains p (a ++ p ++ b) = true.
Proof.
  apply contains_app_r. destruct (p ++ b) eqn:E; simpl.
  - destruct p; [reflexivity | discriminate].
  - rewrite <- E, startswith_app. reflexivity.
Qed.

Lemma eqb_ne (a c : ascii) : a <> c -> Ascii.eqb a c = false.
Proof. apply Ascii.eqb_neq. Qed.

Lemma uint_chars (c : ascii) (d : Decimal.uint) :
  is_digit c = false -> Py.has_char c (NilEmpty.string_of_uint d) = false.
Proof.
  intros Hc.
  induction d; cbn [Py.has_char NilEmpty.string_of_uint]; try reflexivity;
    rewrite IHd, orb_false_r; apply eqb_ne; intros <-; discriminate.
Qed.

Lemma decimal_chars (c : ascii) (n : Z) :
  is_digit c = false -> c <> "-"%char -> Py.has_char c (Py.decimal n) = false.
Proof.
  intros Hd Hm. unfold Py.decimal.
  assert (Hu : forall d, Py.has_char c (NilZero.string_of_uint d) = false).
  { intros d. destruct d; try apply (uint_chars c _ Hd).
    cbn [NilZero.string_of_uint Py.has_char]. rewrite orb_false_r.
    apply eqb_ne. intros <-. discriminate. }
  destruct (Z.to_int n) as [d|d]; cbn [NilZero.string_of_int Py.has_char];
    [apply Hu |].
  rewrite Hu, orb_false_r. apply eqb_ne. congruence.
Qed.

Lemma to_int_not_nil (n : Z) :
  Z.to_int n <> Decimal.Pos Decimal.Nil /\ Z.to_int n <> Decimal.Neg Decimal.Nil.
Proof.
  destruct n as [|p|p]; simpl; split; try discriminate; intros [= H];
    revert H; apply DecimalPos.Unsigned.to_uint_nonnil.
Qed.

Lemma decimal_inj (m n : Z) : Py.decimal m = Py.decimal n -> m = n.
Proof.
  unfold Py.decimal. intros H.
  apply DecimalZ.to_int_inj.
  destruct (to_int_not_nil m) as [Hm1 Hm2], (to_int_not_nil n) as [Hn1 Hn2].
  pose proof (NilZero.isi _ Hm1 Hm2) as Em.
  pose proof (NilZero.isi _ Hn1 Hn2) as En.
  rewrite H in Em. congruence.
Qed.

(** Replacing the space by ["+"] leaves no space. *)
Lemma replace_space_plus (s : string) :
  Py.has_char " " (Py.replace s " " "+") = false.
Proof.
  unfold Py.replace.
  induction s as [|c s IH]; [reflexivity |].
  cbn [Py.replace_from Py.startswith String.length Nat.sub].
  destruct (Ascii.eqb_spec " " c) as [<-|Hne].
  - cbn [andb String.append Py.has_char]. rewrite IH. reflexivity.
  - cbn [andb Py.has_char]. rewrite IH, orb_false_r. apply eqb_ne. congruence.
Qed.

End StringFacts.

(** ** How the primitives run *)

Section Running.

Lemma getitem_mod {A} (l : list A) (i : Z) :
  l <> [] ->
  exists x, nth_error l (Z.to_nat (i mod Py.len l)) = Some x /\
            Py.mod_int i (Py.len l) = inr (i mod Py.len l) /\
            Py.getitem l (i mod Py.len l) = inr x.
Proof.
  intros Hl.
  assert (Hpos : 0 < Py.len l).
  { unfold Py.len. destruct l; [congruence | cbn [length]; lia]. }
  pose proof (Z.mod_pos_bound i _ Hpos) as Hb.
  destruct (nth_error l (Z.to_nat (i mod Py.len l))) as [x|] eqn:E.
  - exists x. split; [reflexivity |]. split.
    + unfold Py.mod_int. destruct (Z.eqb_spec (Py.len l) 0); [lia | reflexivity].
    + unfold Py.getitem.
      destruct (Z.ltb_spec (i mod Py.len l) 0); [lia |].
      destruct (Z.ltb_spec (i mod Py.len l) 0); [lia |].
      now rewrite E.
  - apply nth_error_None in E. unfold Py.len in *. lia.
Qed.

Lemma rotate_run {A} (l : list A) (i : Z) (w : World) :
  l <> [] ->
  exists x, nth_error l (Z.to_nat (i mod Py.len l)) = Some x /\
            rotate l i w =
            (if hd false (faults w) then inl (forced "category selection")
             else inr x, advance w).
Proof.
  intros Hl. destruct (getitem_mod l i Hl) as (x & Hx & Hm & Hg).
  exists x. split; [exact Hx |].
  unfold rotate, bind, step, lift. rewrite Hm, Hg.
  destruct (hd false (faults w)); reflexivity.
Qed.

Lemma randint_run (a b : Z) (w : World) :
  a <= b ->
  randint a b w =
  if hd false (faults w) then (inl (forced "random.randint"), advance w)
  else (inr (a + entropy w (draws w) mod (b - a + 1)), drawn (advance w)).
Proof.
  intros Hab. unfold randint, bind, step.
  destruct (hd false (faults w)); [reflexivity |].
  destruct (Z.ltb_spec b a); [lia | reflexivity].
Qed.

Lemma randint_range (a b r : Z) : a <= b -> a <= a + r mod (b - a + 1) <= b.
Proof. intros H. pose proof (Z.mod_pos_bound r (b - a + 1)). lia. Qed.

Lemma str_replace_run (s old new : string) (w : World) :
  str_replace s old new w =
  (if hd false (faults w) then inl (forced "str.replace")
   else inr (Py.replace s old new), advance w).
Proof. unfold str_replace, bind, step, ret. destruct (hd false (faults w)); reflexivity. Qed.

Lemma fstring_run (parts : list Py.part) (w : World) :
  fstring parts w =
  (if hd false (faults w) then inl (forced "f-string")
   else Py.fjoin parts, advance w).
Proof. unfold fstring, bind, step, lift. destruct (hd false (faults w)); reflexivity. Qed.

(** [str(n)] succeeds exactly within the digit limit, and then gives the
    decimal text. *)
Lemma str_int_fits (n : Z) : Py.fits n = true -> Py.str_int n = inr (Py.decimal n).
Proof. unfold Py.str_int. now intros ->. Qed.

Lemma str_int_inr (n : Z) (s : string) :
  Py.str_int n = inr s -> Py.fits n = true /\ s = Py.decimal n.
Proof.
  unfold Py.str_int. destruct (Py.fits n); [| discriminate].
  intros [= <-]. auto.
Qed.

Lemma str_int_inl (n : Z) (e : Py.exn) :
  Py.str_int n = inl e -> Py.fits n = false /\ e = Py.digit_limit.
Proof.
  unfold Py.str_int. destruct (Py.fits n); [discriminate |].
  intros [= <-]. auto.
Qed.

(** [Py.fits] is the comparison with [10^4300]; the look at the size in
    bits changes nothing. *)
Lemma fits_spec (n : Z) :
  Py.fits n = true <-> Z.abs n < 10 ^ Py.max_str_digits.
Proof.
  unfold Py.fits.
  destruct (Z.ltb_spec (Z.log2 (Z.abs n)) (3 * Py.max_str_digits)) as [H|H];
    [| apply Z.ltb_lt].
  split; [intros _ | reflexivity].
  assert (Hp : 2 ^ (3 * Py.max_str_digits) <= 10 ^ Py.max_str_digits).
  { rewrite Z.pow_mul_r by (unfold Py.max_str_digits; lia).
    apply Z.pow_le_mono_l. change (2 ^ 3) with 8. lia. }
  destruct (Z.eq_dec (Z.abs n) 0) as [E|E].
  - rewrite E. apply Z.pow_pos_nonneg; unfold Py.max_str_digits; lia.
  - apply Z.log2_lt_pow2 in H; [| lia].
    eapply Z.lt_le_trans; [exact H | exact Hp].
Qed.

(** Every token, and every number below a hundred thousand, is far below
    the digit limit. *)
Lemma fits_small (n : Z) : 0 <= n < 100000 -> Py.fits n = true.
Proof.
  intros Hn. apply fits_spec. unfold Py.max_str_digits.
  assert (H : 10 ^ 5 < 10 ^ 4300) by (apply Z.pow_lt_mono_r; lia).
  change (10 ^ 5) with 100000 in H.
  generalize dependent (10 ^ 4300). intros. lia.
Qed.

Lemma fits_token (a b r : Z) :
  0 <= a -> a <= b -> b < 100000 -> Py.fits (a + r mod (b - a + 1)) = true.
Proof.
  intros Ha Hab Hb. apply fits_small.
  pose proof (randint_range a b r Hab). lia.
Qed.

(** Joins the fields of the goal's f-string once the numbers are known to
    be formatted or not. *)
Ltac join_fields :=
  unfold Py.str_int, Py.str_str;
  cbn [Py.fjoin andb]; rewrite ?append_nil_r.

(** The f-string of [ProfessionalAssetManager.get_ai_image]: it fails
    exactly when the width or the height is beyond the digit limit. *)
Lemma fjoin_ai (width height : Z) (c : string) (seed : Z) :
  Py.fits seed = true ->
  Py.fjoin [ Py.Lit "https://source.unsplash.com/"; Py.Val (Py.str_int width);
             Py.Lit "x"; Py.Val (Py.str_int height); Py.Lit "/?";
             Py.Val (Py.str_str c); Py.Lit "&sig=";
             Py.Val (Py.str_int seed) ] =
  if Py.fits width && Py.fits height
  then inr ("https://source.unsplash.com/" ++ Py.decimal width ++ "x" ++
            Py.decimal height ++ "/?" ++ c ++ "&sig=" ++ Py.decimal seed)
  else inl Py.digit_limit.
Proof.
  intros Hs. unfold Py.str_int. rewrite Hs.
  destruct (Py.fits width), (Py.fits height); join_fields; reflexivity.
Qed.

(** The f-strings of the hero and profile resolvers and of their
    handler: a prefix, the width, a separator, the height, a middle part
    and a small number. *)
Lemma fjoin_dims (a b c : string) (width height n : Z) :
  Py.fits n = true ->
  Py.fjoin [ Py.Lit a; Py.Val (Py.str_int width); Py.Lit b;
             Py.Val (Py.str_int height); Py.Lit c; Py.Val (Py.str_int n) ] =
  if Py.fits width && Py.fits height
  then inr (a ++ Py.decimal width ++ b ++ Py.decimal height ++ c ++
            Py.decimal n)
  else inl Py.digit_limit.
Proof.
  intros Hs. unfold Py.str_int. rewrite Hs.
  destruct (Py.fits width), (Py.fits height); join_fields; reflexivity.
Qed.

(** The f-strings that format a text and a token, and a token alone. *)
Lemma fjoin_text_token (a c b : string) (n : Z) :
  Py.fits n = true ->
  Py.fjoin [ Py.Lit a; Py.Val (Py.str_str c); Py.Lit b;
             Py.Val (Py.str_int n) ] =
  inr (a ++ c ++ b ++ Py.decimal n).
Proof. intros Hs. unfold Py.str_int. rewrite Hs. join_fields. reflexivity. Qed.

Lemma fjoin_token (a : string) (n : Z) :
  Py.fits n = true ->
  Py.fjoin [ Py.Lit a; Py.Val (Py.str_int n) ] = inr (a ++ Py.decimal n).
Proof. intros Hs. unfold Py.str_int. rewrite Hs. join_fields. reflexivity. Qed.

Lemma fjoin_texts (a x b y c : string) (n : Z) :
  Py.fits n = true ->
  Py.fjoin [ Py.Lit a; Py.Val (Py.str_str x); Py.Lit b; Py.Val (Py.str_str y);
             Py.Lit c; Py.Val (Py.str_int n) ]
  = inr (a ++ x ++ b ++ y ++ c ++ Py.decimal n).
Proof. intros Hs. unfold Py.str_int. rewrite Hs. join_fields. reflexivity. Qed.

End Running.

(** Unfolds one [bind] and rewrites the primitive that heads it. *)
Ltac run_step :=
  unfold bind at 1;
  first [ rewrite randint_run by lia
        | rewrite str_replace_run
        | rewrite fstring_run;
          rewrite ?fjoin_ai, ?fjoin_dims, ?fjoin_text_token, ?fjoin_token
            by (apply fits_token; lia) ].

(** The flag the next step consumes. *)
Ltac next_flag :=
  match goal with |- context [hd false ?l] => destruct (hd false l) end.

Section ResolverFacts.

Import ProfessionalAssetManager.

Lemma get_ai_image_try_run (index width height : Z) (w : World) :
  exists category,
    nth_error AI_CATEGORIES (Z.to_nat (index mod 10)) = Some category /\
    (forall url w', get_ai_image_try index width height w = (inr url, w') ->
       url = ai_url width height category (token 1000 9999 w) /\
       Py.fits width = true /\ Py.fits height = true) /\
    (faults w = [] -> Py.fits width = true -> Py.fits height = true ->
       exists w', get_ai_image_try index width height w =
                  (inr (ai_url width height category (token 1000 9999 w)), w')).
Proof.
  destruct (rotate_run AI_CATEGORIES index w) as (category & Hc & Hr);
    [discriminate |].
  exists category. split; [exact Hc |].
  unfold token.
  split; [intros url w' | intros Hq Hw Hh];
    unfold get_ai_image_try; unfold bind at 1; rewrite Hr; clear Hr;
    destruct w as [ent dr fl out sl]; cbn [entropy draws faults] in *.
  - destruct (hd false fl); try discriminate.
    do 3 (run_step; cbn [advance drawn faults]; next_flag; try discriminate).
    destruct (Py.fits width), (Py.fits height); try discriminate.
    unfold bind, sleep, ret. intros [= <- _]. auto.
  - subst fl. cbn [hd].
    do 3 (run_step; cbn [advance drawn faults tl hd]).
    rewrite Hw, Hh.
    unfold bind, sleep, ret. eexists. reflexivity.
Qed.

(** The handler of [get_ai_image] cannot fail: it prints and indexes the
    five-element list at [index % 5]. *)
Lemma get_ai_image_except_run (index : Z) (e : Py.exn) (w : World) :
  exists url w',
    nth_error FALLBACK_IMAGES (Z.to_nat (index mod 5)) = Some url /\
    get_ai_image_except index e w = (inr url, w').
Proof.
  destruct (getitem_mod FALLBACK_IMAGES index) as (url & Hn & Hm & Hg);
    [discriminate |].
  exists url. eexists. split; [exact Hn |].
  unfold get_ai_image_except, bind, print, lift. rewrite Hm, Hg. reflexivity.
Qed.

Lemma inline_get_ai_image_try_run (index : Z) (w : World) :
  exists category,
    nth_error AssetManager.AI_CATEGORIES (Z.to_nat (index mod 8)) = Some category /\
    (forall url w', AssetManager.get_ai_image_try index w = (inr url, w') ->
       url = inline_ai_url category (token 1000 9999 w)) /\
    (faults w = [] ->
       exists w', AssetManager.get_ai_image_try index w =
                  (inr (inline_ai_url category (token 1000 9999 w)), w')).
Proof.
  destruct (rotate_run AssetManager.AI_CATEGORIES index w) as (category & Hc & Hr);
    [discriminate |].
  exists category. split; [exact Hc |].
  unfold token.
  split; [intros url w' | intros Hq];
    unfold AssetManager.get_ai_image_try; unfold bind at 1; rewrite Hr; clear Hr;
    destruct w as [ent dr fl out sl]; cbn [entropy draws faults] in *.
  - destruct (hd false fl); try discriminate.
    do 2 (run_step; cbn [advance drawn faults]; next_flag; try discriminate).
    unfold bind, sleep, ret. intros [= <- _]. reflexivity.
  - subst fl. cbn [hd].
    do 2 (run_step; cbn [advance drawn faults tl hd]).
    unfold bind, sleep, ret. eexists. reflexivity.
Qed.

(** The handler of the resolver of [main.py] draws again and formats a
    placeholder URL; both steps can themselves be made to fail. *)
Lemma inline_get_ai_image_except_run (e : Py.exn) (w : World) :
  hd false (faults w) = false ->
  hd false (tl (faults w)) = false ->
  exists w',
    AssetManager.get_ai_image_except e w =
    (inr ("https://picsum.photos/800/600?random=" ++
          Py.decimal (token 1 1000 w)), w').
Proof.
  intros H1 H2. unfold AssetManager.get_ai_image_except, token.
  unfold bind at 1. unfold print at 1.
  unfold bind at 1. rewrite randint_run by lia.
  cbn [faults entropy draws]. rewrite H1.
  rewrite fstring_run. cbn [advance drawn faults]. rewrite H2.
  rewrite fjoin_token by (apply fits_token; lia).
  eexists. reflexivity.
Qed.

(** The formatted URL of [ProfessionalAssetManager.get_ai_image] holds no
    space: the numbers have none and the category has had its spaces
    replaced. *)
Lemma ai_url_no_space (width height : Z) (category : string) (seed : Z) :
  Py.has_char " " (ai_url width height category seed) = false.
Proof.
  unfold ai_url. repeat rewrite has_char_app.
  repeat rewrite (decimal_chars " ") by (reflexivity || discriminate).
  rewrite replace_space_plus. reflexivity.
Qed.

Lemma get_hero_image_try_run (width height : Z) (w : World) (url : string)
    (w' : World) :
  get_hero_image_try width height w = (inr url, w') ->
  url = hero_url width height (token 10000 99999 w).
Proof.
  unfold get_hero_image_try, token. destruct w as [ent dr fl out sl].
  run_step. cbn [entropy draws faults].
  destruct (hd false fl); [discriminate |].
  rewrite fstring_run. cbn [advance drawn faults].
  destruct (hd false (tl fl)); [discriminate |].
  rewrite fjoin_dims by (apply fits_token; lia).
  destruct (Py.fits width && Py.fits height); [| discriminate].
  intros [= <- _]. reflexivity.
Qed.

Lemma get_profile_image_try_run (width height : Z) (w : World) (url : string)
    (w' : World) :
  get_profile_image_try width height w = (inr url, w') ->
  url = profile_url width height (token 5000 9999 w).
Proof.
  unfold get_profile_image_try, token. destruct w as [ent dr fl out sl].
  run_step. cbn [entropy draws faults].
  destruct (hd false fl); [discriminate |].
  rewrite fstring_run. cbn [advance drawn faults].
  destruct (hd false (tl fl)); [discriminate |].
  rewrite fjoin_dims by (apply fits_token; lia).
  destruct (Py.fits width && Py.fits height); [| discriminate].
  intros [= <- _]. reflexivity.
Qed.

End ResolverFacts.

(** ** The batch loops *)

Section BatchFacts.

Import ProfessionalAssetManager.

Lemma cache_item_try_run (category : string) (imgs : list string) (w : World) :
  (forall imgs' w', cache_item_try category imgs w = (inr imgs', w') ->
     imgs' = (imgs ++ [batch_url category (token 1000 9999 w)])%list) /\
  (faults w = [] ->
     exists w', cache_item_try category imgs w =
       (inr (imgs ++ [batch_url category (token 1000 9999 w)])%list, w')).
Proof.
  unfold token.
  split; [intros imgs' w' | intros Hq];
    unfold cache_item_try; destruct w as [ent dr fl out sl];
    cbn [entropy draws faults] in *.
  - do 3 (run_step; cbn [advance drawn faults];
          match goal with |- context [hd false ?l] => destruct (hd false l) end;
          try discriminate).
    unfold bind, sleep, ret. intros [= <- _]. reflexivity.
  - subst fl.
    do 3 (run_step; cbn [advance drawn faults tl hd]).
    unfold bind, sleep, ret. eexists. reflexivity.
Qed.

Lemma cache_item_except_run (category : string) (i : Z) (imgs : list string)
    (e : Py.exn) (w : World) :
  exists u w',
    nth_error FALLBACK_IMAGES (Z.to_nat (i mod 5)) = Some u /\
    cache_item_except category i imgs e w = (inr (imgs ++ [u])%list, w').
Proof.
  destruct (getitem_mod FALLBACK_IMAGES i) as (u & Hn & Hm & Hg);
    [discriminate |].
  exists u. eexists. split; [exact Hn |].
  unfold cache_item_except, bind, print, lift, ret. rewrite Hm, Hg. reflexivity.
Qed.

(** One pass, handler included, always appends exactly one URL. *)
Lemma cache_item_run (category : string) (i : Z) (imgs : list string) (w : World) :
  exists u w',
    try_except (cache_item_try category imgs)
               (cache_item_except category i imgs) w
    = (inr (imgs ++ [u])%list, w') /\
    item_ok category u.
Proof.
  unfold try_except.
  destruct (cache_item_try category imgs w) as [[e|imgs'] w1] eqn:E.
  - destruct (cache_item_except_run category i imgs e w1) as (u & w' & Hn & Hr).
    exists u, w'. split; [exact Hr |]. right. eapply nth_error_In, Hn.
  - destruct (cache_item_try_run category imgs w) as [Hok _].
    specialize (Hok _ _ E). subst imgs'.
    eexists. eexists. split; [reflexivity |].
    left. eexists. split; [| reflexivity].
    unfold token. apply randint_range. lia.
Qed.

Lemma cache_category_run (category : string) (indices : list Z)
    (imgs : list string) (w : World) :
  exists new w',
    cache_category category indices imgs w = (inr (imgs ++ new)%list, w') /\
    length new = length indices /\
    Forall (item_ok category) new.
Proof.
  revert imgs w. induction indices as [|i rest IH]; intros imgs w.
  - exists [], w. cbn [cache_category]. unfold ret.
    rewrite app_nil_r. auto.
  - cbn [cache_category]. unfold bind.
    destruct (cache_item_run category i imgs w) as (u & w1 & -> & Hu).
    destruct (IH (imgs ++ [u])%list w1) as (new & w' & -> & Hlen & Hall).
    exists (u :: new), w'.
    rewrite <- app_assoc. cbn [app length].
    split; [reflexivity |]. split; [now rewrite Hlen |].
    constructor; assumption.
Qed.

Lemma range_length (n : Z) : 0 <= n -> Z.of_nat (length (range n)) = n.
Proof. intros H. unfold range. rewrite length_map, length_seq. lia. Qed.

(** The outer loop never fails; every category it visits ends up as a key,
    and keys it does not visit keep their lists. *)
Lemma cache_loop_run (categories : list string) (count : Z)
    (m : gmap string (list string)) (w : World) :
  exists m' w',
    cache_loop categories count m w = (inr m', w') /\
    dom m' = dom m ∪ list_to_set categories /\
    (forall c, c ∈ categories ->
       exists urls, m' !! c = Some urls /\
                    length urls = length (range count) /\
                    Forall (item_ok c) urls) /\
    (forall c, c ∉ categories -> m' !! c = m !! c).
Proof.
  revert m w. induction categories as [|c rest IH]; intros m w.
  - exists m, w. cbn [cache_loop]. unfold ret.
    split; [reflexivity |].
    split; [now rewrite list_to_set_nil, (right_id_L ∅ (∪)) |].
    split; [intros c Hc; inversion Hc | reflexivity].
  - cbn [cache_loop]. unfold bind.
    destruct (cache_category_run c (range count) [] w)
      as (urls & w1 & -> & Hlen & Hall).
    cbn [app].
    destruct (IH (<[c:=urls]> m) w1) as (m' & w' & -> & Hdom & Hin & Hout).
    exists m', w'. split; [reflexivity |].
    split.
    { rewrite Hdom, dom_insert_L, list_to_set_cons.
      rewrite (comm_L (∪) {[c]} (dom m)), <- (assoc_L (∪)). reflexivity. }
    split.
    + intros c' Hc'.
      destruct (decide (c' ∈ rest)) as [Hr|Hr]; [exact (Hin c' Hr) |].
      apply elem_of_cons in Hc' as [->|Hc']; [| contradiction].
      exists urls. rewrite (Hout c Hr), lookup_insert_eq. auto.
    + intros c' Hc'. apply not_elem_of_cons in Hc' as [Hne Hr].
      rewrite (Hout c' Hr). now apply lookup_insert_ne.
Qed.

(** Running the loop over [pre ++ post] is running it over [pre], then over
    [post] from the map and world reached. *)
Lemma cache_loop_app (pre post : list string) (count : Z)
    (m : gmap string (list string)) (w : World) :
  cache_loop (pre ++ post) count m w =
  bind (cache_loop pre count m) (fun m1 => cache_loop post count m1) w.
Proof.
  revert m w. induction pre as [|c pre IH]; intros m w.
  - reflexivity.
  - cbn [app cache_loop]. unfold bind.
    destruct (cache_category c (range count) [] w) as [[e|urls] w1];
      [reflexivity |].
    rewrite IH. reflexivity.
Qed.

Lemma list_to_set_remove_dups (l : list string) :
  list_to_set (C:=gset string) (remove_dups l) = list_to_set l.
Proof.
  apply set_eq. intros x.
  rewrite !elem_of_list_to_set. apply elem_of_remove_dups.
Qed.

(** The batch never fails; its keys are the categories given, and every
    list has one entry per index of [range(count)]. *)
Lemma cache_images_run (categories : list string) (count : Z) (w : World) :
  exists m w',
    cache_images categories count w = (inr m, w') /\
    dom m = list_to_set categories /\
    (forall c urls, m !! c = Some urls ->
       c ∈ categories /\
       length urls = length (range count) /\
       Forall (item_ok c) urls).
Proof.
  destruct (cache_loop_run categories count ∅ w)
    as (m & w' & Hrun & Hdom & Hin & _).
  exists m, w'. split; [exact Hrun |].
  rewrite dom_empty_L, (left_id_L ∅ (∪)) in Hdom.
  split; [exact Hdom |].
  intros c urls Hc.
  assert (Hmem : c ∈ categories).
  { apply (elem_of_list_to_set (C:=gset string)). rewrite <- Hdom.
    apply elem_of_dom. eauto. }
  destruct (Hin c Hmem) as (urls' & Hc' & Hlen & Hall).
  assert (urls' = urls) by congruence. subst urls'. auto.
Qed.

End BatchFacts.

(** ** Counting markup in a formatted string *)

Section Counting.

Lemma decide_prefix_sound (p s b : string) (d : bool) :
  decide_prefix p s = Some d -> Py.startswith p (s ++ b) = d.
Proof.
  revert s. induction p as [|a p IH]; intros s H.
  - cbn in H. injection H as <-. reflexivity.
  - destruct s as [|c s]; [discriminate |].
    cbn [decide_prefix] in H. cbn [String.append Py.startswith].
    destruct (Ascii.eqb a c); [apply IH, H |].
    injection H as <-. reflexivity.
Qed.

Lemma occ_lit_sound (p a : string) (n : nat) (b : string) :
  occ_lit p a = Some n ->
  Py.occurrences p (a ++ b) = (n + Py.occurrences p b)%nat.
Proof.
  revert n. induction a as [|c a IH]; intros n H.
  - injection H as <-. reflexivity.
  - cbn [occ_lit] in H.
    destruct (decide_prefix p (String c a)) as [d|] eqn:Ed; [| discriminate].
    destruct (occ_lit p a) as [k|]; [| discriminate].
    injection H as <-.
    change (String c a ++ b) with (String c (a ++ b)).
    cbn [Py.occurrences].
    change (String c (a ++ b)) with (String c a ++ b).
    rewrite (decide_prefix_sound _ _ b _ Ed), (IH k eq_refl).
    destruct d; lia.
Qed.

(** A stretch without the first character of [p] holds no start of [p]. *)
Lemma occ_skip (c : ascii) (p a b : string) :
  Py.has_char c a = false ->
  Py.occurrences (String c p) (a ++ b) = Py.occurrences (String c p) b.
Proof.
  induction a as [|x a IH]; intros H; [reflexivity |].
  cbn [Py.has_char] in H. apply orb_false_elim in H as [Hx Ha].
  change (String x a ++ b) with (String x (a ++ b)).
  cbn [Py.occurrences Py.startswith].
  rewrite Ascii.eqb_sym, Hx, (IH Ha). reflexivity.
Qed.

Lemma has_char_substring (c : ascii) (s : string) (n m : nat) :
  Py.has_char c s = false -> Py.has_char c (String.substring n m s) = false.
Proof.
  revert n m. induction s as [|x s IH]; intros n m H.
  - destruct n, m; reflexivity.
  - cbn [Py.has_char] in H. apply orb_false_elim in H as [Hx Hs].
    destruct n as [|n]; [destruct m as [|m] |]; cbn [String.substring].
    + reflexivity.
    + cbn [Py.has_char]. now rewrite Hx, IH.
    + now apply IH.
Qed.

Lemma has_char_zeros (c : ascii) (n : nat) :
  c <> "0"%char -> Py.has_char c (Py.zeros n) = false.
Proof.
  intros Hc. induction n as [|n IH]; [reflexivity |].
  cbn [Py.zeros Py.has_char]. rewrite IH, orb_false_r.
  apply eqb_ne. congruence.
Qed.

Lemma repr_float_chars (c : ascii) (x : Py.float) :
  float_char c = false -> Py.has_char c (Py.repr_float x) = false.
Proof.
  unfold float_char. intros H.
  repeat (apply orb_false_elim in H as [H ?]).
  assert (Hm : c <> "-"%char) by (intros ->; discriminate).
  assert (Hp : c <> "."%char) by (intros ->; discriminate).
  assert (He : c <> "e"%char) by (intros ->; discriminate).
  assert (Hq : c <> "+"%char) by (intros ->; discriminate).
  assert (Hz : c <> "0"%char) by (intros ->; discriminate).
  assert (Hlit : forall a : ascii, c <> a -> Py.has_char c (String a "") = false).
  { intros a Ha. cbn [Py.has_char]. rewrite orb_false_r. apply eqb_ne. congruence. }
  assert (Hsign : Py.has_char c (if Py.fneg x then "-" else "") = false).
  { destruct (Py.fneg x); [now apply Hlit | reflexivity]. }
  assert (Hint : forall n, Py.has_char c (Py.decimal n) = false)
    by (intros n; now apply decimal_chars).
  unfold Py.repr_float, Py.take, Py.drop.
  destruct (Py.fmant x =? 0).
  - rewrite has_char_app, Hsign. cbn [Py.has_char orb].
    rewrite (eqb_ne _ _ (not_eq_sym Hz)), (eqb_ne _ _ (not_eq_sym Hp)).
    reflexivity.
  - destruct (Py.shortest (Py.fmant x) (Py.fexp x)) as [d decpt].
    repeat match goal with
           | |- context [if ?b then _ else _] => destruct b
           end;
      repeat rewrite has_char_app;
      repeat rewrite has_char_substring by apply Hint;
      repeat rewrite Hint; repeat rewrite Hsign;
      repeat rewrite has_char_zeros by exact Hz;
      repeat rewrite Hlit by assumption;
      cbn [Py.has_char orb];
      repeat rewrite (eqb_ne _ _ (not_eq_sym Hz));
      repeat rewrite (eqb_ne _ _ (not_eq_sym Hp));
      reflexivity.
Qed.

(** [a / 3] only fails by overflow, and only for a huge [a]. *)
Lemma truediv3_cases (a : Z) :
  match Py.truediv a 3 with
  | inr _ => True
  | inl e =>
      e = Py.OverflowError "integer division result too large for a float" /\
      2 ^ 1024 <= Z.abs a
  end.
Proof.
  unfold Py.truediv. cbn [Z.eqb].
  destruct (Z.eqb_spec (Z.abs a) 0) as [|Hx]; [exact I |].
  change (Z.abs 3) with 3. change (Z.log2 3) with 1.
  set (x := Z.abs a) in *.
  set (e0 := Z.log2 x - 1 - 53).
  set (e1 := if Py.lt_scaled x 3 (e0 + 53) then e0 else e0 + 1).
  set (e := Z.max e1 (-1074)).
  set (m := if 0 <=? e then _ else _).
  set (e' := if m =? 2 ^ 53 then e + 1 else e).
  destruct (Z.ltb_spec 971 e') as [Hbig|]; [| exact I].
  split; [reflexivity |].
  assert (He' : e' <= e + 1) by (unfold e'; destruct (m =? 2 ^ 53); lia).
  assert (He1 : e1 <= e0 + 1)
    by (unfold e1; destruct (Py.lt_scaled x 3 (e0 + 53)); lia).
  assert (Hl : 1024 <= Z.log2 x) by (unfold e, e0 in *; lia).
  apply Z.log2_le_pow2; [unfold x; lia | exact Hl].
Qed.

End Counting.

(** ** The placeholder graphic *)

Section PlaceholderFacts.

Import ProfessionalAssetManager.

Lemma decimal_plain (n : Z) : plain (Py.decimal n).
Proof. apply decimal_chars; [reflexivity | discriminate]. Qed.

Lemma repr_float_plain (x : Py.float) : plain (Py.repr_float x).
Proof. apply repr_float_chars. reflexivity. Qed.

(** Evaluates the quoted literals of the goal. *)
Ltac eval_dq :=
  repeat match goal with
         | |- context [Py.dq ?s] =>
             let v := eval vm_compute in (Py.dq s) in
             change (Py.dq s) with v
         end.



(** The label is the content of a text element anchored at the middle of
    the graphic. *)
Lemma svg_markup_label (w h h3 h23 w3 w23 text : string) :
  svg_markup w h h3 h23 w3 w23 "#ffffff" text =
  svg_head w h ++
  "<text x='50%' y='50%' dominant-baseline='middle' text-anchor='middle' font-family='sans-serif' font-size='24' fill='#ffffff'>" ++
  text ++ "</text>" ++ svg_tail w h h3 h23 w3 w23.
Proof.
  unfold svg_markup, svg_head, svg_tail. eval_dq.
  repeat rewrite append_assoc. reflexivity.
Qed.


(** What [get_placeholder_svg] returns, and when it raises instead: the
    formatting of the width or the height fails first, a division only
    when both can be formatted. *)
Lemma get_placeholder_svg_run (width height : Z) (text : string) :
  match get_placeholder_svg width height text with
  | inr s =>
      Py.fits width = true /\ Py.fits height = true /\
      exists h3 h23 w3 w23,
        Py.truediv height 3 = inr h3 /\
        Py.truediv (height * 2) 3 = inr h23 /\
        Py.truediv width 3 = inr w3 /\
        Py.truediv (width * 2) 3 = inr w23 /\
        s = svg_markup (Py.decimal width) (Py.decimal height)
                       (Py.repr_float h3) (Py.repr_float h23)
                       (Py.repr_float w3) (Py.repr_float w23) "#ffffff" text
  | inl e =>
      (e = Py.digit_limit /\
       (Py.fits width = false \/ Py.fits height = false)) \/
      (e = Py.OverflowError "integer division result too large for a float" /\
       Py.fits width = true /\ Py.fits height = true /\
       (2 ^ 1023 <= Z.abs width \/ 2 ^ 1023 <= Z.abs height))
  end.
Proof.
  unfold get_placeholder_svg, Py.str_int, Py.str_str, Py.str_float.
  pose proof (truediv3_cases height) as H1.
  pose proof (truediv3_cases (height * 2)) as H2.
  pose proof (truediv3_cases width) as H3.
  pose proof (truediv3_cases (width * 2)) as H4.
  assert (P : 2 ^ 1024 = 2 * 2 ^ 1023) by reflexivity.
  destruct (Py.fits width); [| cbn [Py.fjoin]; left; auto].
  destruct (Py.fits height); [| cbn [Py.fjoin]; left; auto].
  destruct (Py.truediv height 3) as [e|h3];
    [cbv beta iota in H1; destruct H1 as [-> H1]; cbn [Py.fjoin];
     right; repeat split; lia |].
  destruct (Py.truediv (height * 2) 3) as [e|h23];
    [cbv beta iota in H2; destruct H2 as [-> H2]; cbn [Py.fjoin];
     right; repeat split; lia |].
  destruct (Py.truediv width 3) as [e|w3];
    [cbv beta iota in H3; destruct H3 as [-> H3]; cbn [Py.fjoin];
     right; repeat split; lia |].
  destruct (Py.truediv (width * 2) 3) as [e|w23];
    [cbv beta iota in H4; destruct H4 as [-> H4]; cbn [Py.fjoin];
     right; repeat split; lia |].
  cbn [Py.fjoin]. split; [reflexivity |]. split; [reflexivity |].
  exists h3, h23, w3, w23. repeat split.
Qed.

(** When nothing raises, the graphic is the template filled in, whatever
    the label. *)
Lemma get_placeholder_svg_eq (width height : Z) (text : string)
    (h3 h23 w3 w23 : Py.float) :
  Py.fits width = true -> Py.fits height = true ->
  Py.truediv height 3 = inr h3 ->
  Py.truediv (height * 2) 3 = inr h23 ->
  Py.truediv width 3 = inr w3 ->
  Py.truediv (width * 2) 3 = inr w23 ->
  get_placeholder_svg width height text =
  inr (svg_markup (Py.decimal width) (Py.decimal height)
                  (Py.repr_float h3) (Py.repr_float h23)
                  (Py.repr_float w3) (Py.repr_float w23) "#ffffff" text).
Proof.
  intros Hw Hh E1 E2 E3 E4.
  unfold get_placeholder_svg, Py.str_int, Py.str_str, Py.str_float.
  rewrite Hw, Hh, E1, E2, E3, E4. reflexivity.
Qed.

End PlaceholderFacts.

(** * The claims *)

Section Claims.

Import ProfessionalAssetManager.

(** C1, as the spec states it, fails on the resolver of [main.py]: with
    the first step of its [try] suite forced to fail at index 0 it returns
    a placeholder URL built from a fresh draw, which is not
    [FALLBACK_IMAGES[0]] nor any entry of that list; when the draw of the
    handler is forced to fail as well, the exception reaches the caller. *)
Lemma inline_resolver_fallback_differs :
  fst (AssetManager.get_ai_image 0 (faulty (fun _ => 6) [true]))
    = inr "https://picsum.photos/800/600?random=7" /\
  nth_error FALLBACK_IMAGES (Z.to_nat (0 mod 5))
    = Some "https://picsum.photos/800/600?random=1" /\
  existsb (String.eqb "https://picsum.photos/800/600?random=7")
          FALLBACK_IMAGES = false /\
  fst (AssetManager.get_ai_image 0 (faulty (fun _ => 6) [true; true]))
    = inl (Py.RuntimeError "forced failure: random.randint").
Proof. vm_compute. repeat split; reflexivity. Qed.

(** C1 (amended): [ProfessionalAssetManager.get_ai_image] never raises to
    its caller: for every index, width, height and world it returns a URL,
    and whenever its [try] suite raises (in category selection, token
    generation, encoding or formatting) that URL is exactly
    [FALLBACK_IMAGES[index mod 5]].  The one-argument resolver of [main.py]
    has no fallback list: when its [try] suite raises and the handler's own
    draw and formatting are not made to fail, it returns
    ["https://picsum.photos/800/600?random=N"] with a fresh [N] between 1
    and 1000. *)
Theorem get_ai_image_absorbs_failure (index width height : Z) (w : World) :
  (exists url w',
     get_ai_image index width height w = (inr url, w') /\
     forall e w1, get_ai_image_try index width height w = (inl e, w1) ->
       nth_error FALLBACK_IMAGES (Z.to_nat (index mod Py.len FALLBACK_IMAGES))
       = Some url)
  /\
  (forall e w1, AssetManager.get_ai_image_try index w = (inl e, w1) ->
     hd false (faults w1) = false ->
     hd false (tl (faults w1)) = false ->
     exists n w',
       1 <= n <= 1000 /\
       AssetManager.get_ai_image index w =
       (inr ("https://picsum.photos/800/600?random=" ++ Py.decimal n), w')).
Proof.
  split.
  - unfold get_ai_image, try_except.
    destruct (get_ai_image_try index width height w) as [[e|url] w1] eqn:E.
    + destruct (get_ai_image_except_run index e w1) as (url & w' & Hn & Hr).
      exists url, w'. split; [exact Hr |]. intros _ _ _. exact Hn.
    + exists url, w1. split; [reflexivity |]. intros e w2 [=].
  - intros e w1 E H1 H2.
    destruct (inline_get_ai_image_except_run e w1 H1 H2) as (w' & Hr).
    exists (token 1 1000 w1), w'. split.
    + unfold token. apply randint_range. lia.
    + unfold AssetManager.get_ai_image, try_except. rewrite E. exact Hr.
Qed.

(** With the encoding step forced to fail, index 7 resolves to the third
    fallback entry. *)
Lemma get_ai_image_absorbs_failure_witness :
  fst (get_ai_image 7 800 600 (faulty (fun _ => 0) [false; false; true]))
  = inr "https://picsum.photos/800/600?random=3".
Proof.
  destruct (get_ai_image_absorbs_failure 7 800 600
              (faulty (fun _ => 0) [false; false; true]))
    as [(url & w' & Hrun & Hfb) _].
  rewrite Hrun. cbn [fst]. f_equal.
  specialize (Hfb (forced "str.replace") (mkWorld (fun _ => 0) 1 [] [] 0)
                  eq_refl).
  vm_compute in Hfb. injection Hfb as <-. reflexivity.
Defined.

(** C2: for every non-negative index [i] the category that goes into the
    URL is [AI_CATEGORIES[i mod len(AI_CATEGORIES)]], whatever the size of
    [i]: a successful [try] suite returns the URL formatted from that
    entry, and without injected faults the resolver does succeed (for a
    width and a height of at most 4300 digits, which [str] can format).
    This holds for the ten-entry rotation of [ProfessionalAssetManager]
    and for the eight-entry rotation of the resolver of [main.py]. *)
Theorem category_follows_rotation (i : Z) (Hi : 0 <= i) (width height : Z)
    (w : World) :
  (exists category,
     nth_error AI_CATEGORIES (Z.to_nat (i mod Py.len AI_CATEGORIES))
       = Some category /\
     (forall url w', get_ai_image_try i width height w = (inr url, w') ->
        get_ai_image i width height w = (inr url, w') /\
        url = ai_url width height category (token 1000 9999 w)) /\
     (faults w = [] -> Py.fits width = true -> Py.fits height = true ->
        exists w', get_ai_image i width height w =
                   (inr (ai_url width height category (token 1000 9999 w)), w')))
  /\
  (exists category,
     nth_error AssetManager.AI_CATEGORIES
               (Z.to_nat (i mod Py.len AssetManager.AI_CATEGORIES))
       = Some category /\
     (forall url w', AssetManager.get_ai_image_try i w = (inr url, w') ->
        AssetManager.get_ai_image i w = (inr url, w') /\
        url = inline_ai_url category (token 1000 9999 w)) /\
     (faults w = [] ->
        exists w', AssetManager.get_ai_image i w =
                   (inr (inline_ai_url category (token 1000 9999 w)), w'))).
Proof.
  split.
  - destruct (get_ai_image_try_run i width height w) as (c & Hc & Hok & Hq).
    exists c. split; [exact Hc |]. split.
    + intros url w' E. split; [| exact (proj1 (Hok _ _ E))].
      unfold get_ai_image, try_except. now rewrite E.
    + intros Hf Hw Hh. destruct (Hq Hf Hw Hh) as (w' & E). exists w'.
      unfold get_ai_image, try_except. now rewrite E.
  - destruct (inline_get_ai_image_try_run i w) as (c & Hc & Hok & Hq).
    exists c. split; [exact Hc |]. split.
    + intros url w' E. split; [| exact (Hok _ _ E)].
      unfold AssetManager.get_ai_image, try_except. now rewrite E.
    + intros Hf. destruct (Hq Hf) as (w' & E). exists w'.
      unfold AssetManager.get_ai_image, try_except. now rewrite E.
Qed.

(** Index 1234567890123 selects entry 3 of the ten, ["neural network"],
    and entry 3 of the eight as well. *)
Lemma category_follows_rotation_witness :
  0 <= 1234567890123 /\
  fst (get_ai_image 1234567890123 800 600 (quiet (fun _ => 234)))
    = inr "https://source.unsplash.com/800x600/?neural+network&sig=1234" /\
  fst (AssetManager.get_ai_image 1234567890123 (quiet (fun _ => 234)))
    = inr "https://source.unsplash.com/800x600/?neural network&sig=1234".
Proof.
  assert (Hi : 0 <= 1234567890123) by lia.
  split; [exact Hi |].
  destruct (category_follows_rotation 1234567890123 Hi 800 600
              (quiet (fun _ => 234)))
    as [(c & Hc & _ & Hq) (c' & Hc' & _ & Hq')].
  destruct (Hq eq_refl (fits_small 800 ltac:(lia)) (fits_small 600 ltac:(lia)))
    as (w' & ->).
  destruct (Hq' eq_refl) as (w'' & ->).
  vm_compute in Hc. injection Hc as <-.
  vm_compute in Hc'. injection Hc' as <-.
  vm_compute. split; reflexivity.
Defined.

(** C3: the claim holds for [ProfessionalAssetManager.get_ai_image], whose
    successful URL never holds a space, and fails for the resolver of
    [main.py], which formats the category as it is: at index 0 its URL is
    ["...?artificial intelligence&sig=1234"], with a space. *)
Theorem inline_resolver_leaves_space :
  (forall index width height w url w',
     get_ai_image_try index width height w = (inr url, w') ->
     get_ai_image index width height w = (inr url, w') /\
     Py.has_char " " url = false)
  /\
  fst (AssetManager.get_ai_image 0 (quiet (fun _ => 234)))
    = inr "https://source.unsplash.com/800x600/?artificial intelligence&sig=1234"
  /\
  Py.has_char " "
    "https://source.unsplash.com/800x600/?artificial intelligence&sig=1234"
    = true.
Proof.
  split; [| vm_compute; split; reflexivity].
  intros index width height w url w' E. split.
  - unfold get_ai_image, try_except. now rewrite E.
  - destruct (get_ai_image_try_run index width height w) as (c & _ & Hok & _).
    rewrite (proj1 (Hok _ _ E)). apply ai_url_no_space.
Qed.

(** The same world resolved by both resolvers at index 0. *)
Lemma inline_resolver_leaves_space_witness :
  fst (get_ai_image 0 800 600 (quiet (fun _ => 234)))
    = inr "https://source.unsplash.com/800x600/?artificial+intelligence&sig=1234"
  /\
  Py.has_char " "
    "https://source.unsplash.com/800x600/?artificial+intelligence&sig=1234"
    = false.
Proof.
  destruct inline_resolver_leaves_space as [Hall _].
  destruct (Hall 0 800 600 (quiet (fun _ => 234))
              "https://source.unsplash.com/800x600/?artificial+intelligence&sig=1234"
              (mkWorld (fun _ => 234) 1 [] [] 1) eq_refl) as [Hrun Hsp].
  rewrite Hrun. split; [reflexivity | exact Hsp].
Defined.

(** C4, as the spec states it, fails: a width of 4301 digits cannot be
    formatted, the [try] suite raises and the resolver answers with the
    first fallback URL, which is fixed at 800/600 and does not hold the
    width; and when the encoding step is made to fail, a 1024 by 768
    request is answered with a fallback URL that holds neither number. *)
Lemma oversized_width_falls_back :
  (fst (get_ai_image 0 (10 ^ 4300) 600 (quiet (fun _ => 0)))
     = inr "https://picsum.photos/800/600?random=1" /\
   Py.contains (Py.decimal (10 ^ 4300))
     "https://picsum.photos/800/600?random=1" = false) /\
  (fst (get_ai_image 0 1024 768 (faulty (fun _ => 0) [false; false; true]))
     = inr "https://picsum.photos/800/600?random=1" /\
   Py.contains "1024" "https://picsum.photos/800/600?random=1" = false /\
   Py.contains "768" "https://picsum.photos/800/600?random=1" = false).
Proof. vm_compute. repeat split. Qed.

(** C4 (amended): for all integers [i], [w] and [h] and every world,
    [get_ai_image i w h] returns a non-empty URL; when no step of its
    [try] suite fails, that URL contains the decimal text of [w] and of
    [h]; and no step fails when no fault is injected and [w] and [h] have
    at most 4300 digits.  When a step fails the URL is an entry of the
    fallback list, fixed at 800/600. *)
Theorem resolved_url_shows_dimensions (i width height : Z) (w : World) :
  (exists url w',
     get_ai_image i width height w = (inr url, w') /\ url <> "" /\
     forall e w1, get_ai_image_try i width height w = (inl e, w1) ->
       In url FALLBACK_IMAGES) /\
  (forall url w', get_ai_image_try i width height w = (inr url, w') ->
     get_ai_image i width height w = (inr url, w') /\
     Py.contains (Py.decimal width) url = true /\
     Py.contains (Py.decimal height) url = true) /\
  (faults w = [] -> Py.fits width = true -> Py.fits height = true ->
     exists url w', get_ai_image_try i width height w = (inr url, w')).
Proof.
  destruct (get_ai_image_try_run i width height w) as (c & _ & Hok & Hrun).
  assert (Hdims : forall url w',
             get_ai_image_try i width height w = (inr url, w') ->
             url <> "" /\
             Py.contains (Py.decimal width) url = true /\
             Py.contains (Py.decimal height) url = true).
  { intros url w' E. rewrite (proj1 (Hok _ _ E)). unfold ai_url.
    split; [discriminate |]. split.
    - apply contains_here.
    - rewrite <- (append_assoc _ (Py.decimal width)).
      rewrite <- (append_assoc _ "x").
      apply contains_here. }
  split; [| split].
  - unfold get_ai_image, try_except.
    destruct (get_ai_image_try i width height w) as [[e|url] w1] eqn:E.
    + destruct (get_ai_image_except_run i e w1) as (url & w' & Hn & Hr).
      exists url, w'. split; [exact Hr |].
      apply nth_error_In in Hn. split; [| intros _ _ _; exact Hn].
      cbn [FALLBACK_IMAGES In] in Hn.
      intros ->. repeat (destruct Hn as [Hn|Hn]; [discriminate |]).
      exact Hn.
    + exists url, w1. split; [reflexivity |].
      split; [exact (proj1 (Hdims _ _ eq_refl)) | intros e w2 [=]].
  - intros url w' E. split; [| exact (proj2 (Hdims _ _ E))].
    unfold get_ai_image, try_except. now rewrite E.
  - intros Hq Hw Hh. destruct (Hrun Hq Hw Hh) as (w' & E). eauto.
Qed.

(** A 1024 by 768 request at index -3, resolved without faults. *)
Lemma resolved_url_shows_dimensions_witness :
  exists url w',
    get_ai_image (-3) 1024 768 (quiet (fun _ => 41)) = (inr url, w') /\
    url <> "" /\
    Py.contains "1024" url = true /\
    Py.contains "768" url = true.
Proof.
  destruct (resolved_url_shows_dimensions (-3) 1024 768 (quiet (fun _ => 41)))
    as (_ & Hok & Hrun).
  destruct (Hrun eq_refl (fits_small 1024 ltac:(lia)) (fits_small 768 ltac:(lia)))
    as (url & w' & E).
  destruct (Hok url w' E) as (Hr & Hw & Hh).
  exists url, w'. split; [exact Hr |]. split; [| split; assumption].
  intros ->. vm_compute in E. discriminate E.
Defined.

(** C7, as the spec states it, fails: two runs that draw from different
    entropy (234 and 9234) both land on token 1234 and return the same
    URL. *)
Lemma two_runs_same_url :
  fst (get_ai_image 3 800 600 (quiet (fun _ => 234)))
    = inr "https://source.unsplash.com/800x600/?neural+network&sig=1234" /\
  fst (get_ai_image 3 800 600 (quiet (fun _ => 9234)))
    = inr "https://source.unsplash.com/800x600/?neural+network&sig=1234".
Proof. vm_compute. split; reflexivity. Qed.

(** C7 (amended): when neither run falls back, two resolutions of the same
    index, width and height return different URLs exactly when they draw
    different tokens; each token is one of the 9000 integers from 1000 to
    9999, so equal URLs are unlikely but possible.  Neither run falls back
    when no fault is injected and the width and the height have at most
    4300 digits. *)
Theorem resolutions_differ_iff_tokens_differ (i width height : Z)
    (w1 w2 w1' w2' : World) (url1 url2 : string)
    (H1 : get_ai_image_try i width height w1 = (inr url1, w1'))
    (H2 : get_ai_image_try i width height w2 = (inr url2, w2')) :
  get_ai_image i width height w1 = (inr url1, w1') /\
  get_ai_image i width height w2 = (inr url2, w2') /\
  1000 <= token 1000 9999 w1 <= 9999 /\
  1000 <= token 1000 9999 w2 <= 9999 /\
  (url1 = url2 <-> token 1000 9999 w1 = token 1000 9999 w2) /\
  (forall w, faults w = [] -> Py.fits width = true -> Py.fits height = true ->
     exists url w', get_ai_image_try i width height w = (inr url, w')).
Proof.
  destruct (get_ai_image_try_run i width height w1) as (c1 & Hc1 & R1 & _).
  destruct (get_ai_image_try_run i width height w2) as (c2 & Hc2 & R2 & _).
  assert (c2 = c1) by congruence. subst c2.
  destruct (R1 _ _ H1) as (-> & _). destruct (R2 _ _ H2) as (-> & _).
  split; [unfold get_ai_image, try_except; now rewrite H1 |].
  split; [unfold get_ai_image, try_except; now rewrite H2 |].
  split; [unfold token; apply randint_range; lia |].
  split; [unfold token; apply randint_range; lia |].
  split; [split |].
  - unfold ai_url. intros H.
    do 7 apply append_inv_head in H.
    now apply decimal_inj.
  - now intros ->.
  - intros w Hq Hw Hh.
    destruct (get_ai_image_try_run i width height w) as (c & _ & _ & R).
    destruct (R Hq Hw Hh) as (w' & E). eauto.
Qed.

(** Entropy 5 and 6 give the tokens 1005 and 1006 and two different URLs. *)
Lemma resolutions_differ_iff_tokens_differ_witness :
  fst (get_ai_image 0 800 600 (quiet (fun _ => 5)))
    = inr "https://source.unsplash.com/800x600/?artificial+intelligence&sig=1005" /\
  fst (get_ai_image 0 800 600 (quiet (fun _ => 6)))
    = inr "https://source.unsplash.com/800x600/?artificial+intelligence&sig=1006" /\
  ("https://source.unsplash.com/800x600/?artificial+intelligence&sig=1005"
   = "https://source.unsplash.com/800x600/?artificial+intelligence&sig=1006"
   <-> token 1000 9999 (quiet (fun _ => 5)) = token 1000 9999 (quiet (fun _ => 6))).
Proof.
  destruct (resolutions_differ_iff_tokens_differ 0 800 600
              (quiet (fun _ => 5)) (quiet (fun _ => 6))
              (mkWorld (fun _ => 5) 1 [] [] 1) (mkWorld (fun _ => 6) 1 [] [] 1)
              "https://source.unsplash.com/800x600/?artificial+intelligence&sig=1005"
              "https://source.unsplash.com/800x600/?artificial+intelligence&sig=1006"
              eq_refl eq_refl)
    as (E1 & E2 & _ & _ & Hiff & _).
  rewrite E1, E2. repeat split; apply Hiff.
Defined.

(** C10: the token in a successfully formatted URL lies in [1000, 9999]
    for [get_ai_image] and for every item of [cache_images], in
    [10000, 99999] for [get_hero_image] and in [5000, 9999] for
    [get_profile_image]; the last range is strictly inside the first,
    whose tokens can be as low as 1000.  A batch item that is not such a
    URL is an entry of the fallback list. *)
Theorem token_ranges (index width height : Z) (categories : list string)
    (count : Z) (w : World) :
  (forall url w', get_ai_image_try index width height w = (inr url, w') ->
     exists category seed,
       1000 <= seed <= 9999 /\ url = ai_url width height category seed) /\
  (forall url w', get_hero_image_try width height w = (inr url, w') ->
     exists seed,
       10000 <= seed <= 99999 /\ url = hero_url width height seed) /\
  (forall url w', get_profile_image_try width height w = (inr url, w') ->
     exists seed,
       5000 <= seed <= 9999 /\ url = profile_url width height seed) /\
  (exists m w',
     cache_images categories count w = (inr m, w') /\
     forall c urls, m !! c = Some urls ->
       Forall (fun u =>
                 (exists seed, 1000 <= seed <= 9999 /\ u = batch_url c seed) \/
                 In u FALLBACK_IMAGES) urls) /\
  token 1000 9999 (quiet (fun _ => 0)) = 1000.
Proof.
  split; [| split; [| split; [| split]]].
  - intros url w' E.
    destruct (get_ai_image_try_run index width height w) as (c & _ & Hok & _).
    exists c, (token 1000 9999 w). split; [| exact (proj1 (Hok _ _ E))].
    unfold token. apply randint_range. lia.
  - intros url w' E. exists (token 10000 99999 w).
    split; [unfold token; apply randint_range; lia |].
    exact (get_hero_image_try_run _ _ _ _ _ E).
  - intros url w' E. exists (token 5000 9999 w).
    split; [unfold token; apply randint_range; lia |].
    exact (get_profile_image_try_run _ _ _ _ _ E).
  - destruct (cache_images_run categories count w) as (m & w' & Hrun & _ & Hall).
    exists m, w'. split; [exact Hrun |].
    intros c urls Hc. exact (proj2 (proj2 (Hall c urls Hc))).
  - reflexivity.
Qed.

(** One run of each resolver: the tokens are 1000, 10007 and 5007. *)
Lemma token_ranges_witness :
  fst (get_ai_image 5 800 600 (quiet (fun _ => 0)))
    = inr "https://source.unsplash.com/800x600/?code&sig=1000" /\
  fst (get_hero_image 1200 600 (quiet (fun _ => 7)))
    = inr "https://source.unsplash.com/1200x600/?artificial+intelligence+technology+code&sig=10007" /\
  fst (get_profile_image 400 400 (quiet (fun _ => 7)))
    = inr "https://source.unsplash.com/400x400/?professional+portrait+technology&sig=5007" /\
  exists seed, 5000 <= seed <= 9999 /\
    "https://source.unsplash.com/400x400/?professional+portrait+technology&sig=5007"
    = profile_url 400 400 seed.
Proof.
  split; [vm_compute; reflexivity |].
  split; [vm_compute; reflexivity |].
  split; [vm_compute; reflexivity |].
  destruct (token_ranges 5 400 400 [] 1 (quiet (fun _ => 7)))
    as (_ & _ & Hp & _).
  exact (Hp "https://source.unsplash.com/400x400/?professional+portrait+technology&sig=5007"
            (mkWorld (fun _ => 7) 1 [] [] 0) eq_refl).
Defined.

(** C5: for every list of categories, every count [n >= 0] and every
    world, faults included, [cache_images] returns a mapping in which every
    category given is a key and every key is mapped to exactly [n] URLs;
    for [["x"; "y"]] and 2 the mapping has exactly the two keys, each with
    2 URLs.  A failing item is replaced by a fallback URL and the batch
    goes on. *)
Theorem cache_images_shape (categories : list string) (n : Z) (Hn : 0 <= n)
    (w : World) :
  (exists m w',
     cache_images categories n w = (inr m, w') /\
     (forall c, c ∈ categories -> is_Some (m !! c)) /\
     (forall c urls, m !! c = Some urls -> Z.of_nat (length urls) = n))
  /\
  (exists m w' xs ys,
     cache_images ["x"; "y"] 2 w = (inr m, w') /\
     dom m = {["x"; "y"]} /\ size m = 2%nat /\
     m !! "x" = Some xs /\ length xs = 2%nat /\
     m !! "y" = Some ys /\ length ys = 2%nat).
Proof.
  split.
  - destruct (cache_images_run categories n w) as (m & w' & Hrun & Hdom & Hall).
    exists m, w'. split; [exact Hrun |]. split.
    + intros c Hc. apply elem_of_dom. rewrite Hdom.
      now apply elem_of_list_to_set.
    + intros c urls Hc. destruct (Hall c urls Hc) as (_ & Hlen & _).
      rewrite Hlen. now apply range_length.
  - destruct (cache_images_run ["x"; "y"] 2 w) as (m & w' & Hrun & Hdom & Hall).
    assert (Hx : is_Some (m !! "x")).
    { apply elem_of_dom. rewrite Hdom. apply elem_of_list_to_set.
      apply elem_of_cons. now left. }
    assert (Hy : is_Some (m !! "y")).
    { apply elem_of_dom. rewrite Hdom. apply elem_of_list_to_set.
      apply elem_of_cons. right. apply elem_of_cons. now left. }
    destruct Hx as [xs Hx], Hy as [ys Hy].
    exists m, w', xs, ys. split; [exact Hrun |].
    assert (Hd : dom m = {["x"; "y"]}).
    { rewrite Hdom. cbn [list_to_set foldr].
      now rewrite (right_id_L ∅ (∪)). }
    split; [exact Hd |].
    split.
    { rewrite <- size_dom, Hd, size_union by
        (apply disjoint_singleton_l, not_elem_of_singleton; discriminate).
      now rewrite !size_singleton. }
    destruct (Hall _ _ Hx) as (_ & Hlx & _), (Hall _ _ Hy) as (_ & Hly & _).
    auto.
Qed.

(** The batch of the spec's example in a world that makes the draw of the
    very first item fail: the item becomes [FALLBACK_IMAGES[0]] and the
    other three items are formatted as usual. *)
Lemma cache_images_shape_witness :
  0 <= 2 /\
  fst (cache_images ["x"; "y"] 2 (faulty (fun k => Z.of_nat k) [true]))
  = inr (<["y" := ["https://source.unsplash.com/800x600/?y&sig=1001";
                   "https://source.unsplash.com/800x600/?y&sig=1002"]]>
         (<["x" := ["https://picsum.photos/800/600?random=1";
                    "https://source.unsplash.com/800x600/?x&sig=1000"]]> ∅)) /\
  exists m w',
    cache_images ["x"; "y"] 2 (faulty (fun k => Z.of_nat k) [true]) = (inr m, w') /\
    (forall c, c ∈ ["x"; "y"] -> is_Some (m !! c)) /\
    (forall c urls, m !! c = Some urls -> Z.of_nat (length urls) = 2).
Proof.
  assert (Hn : 0 <= 2) by lia.
  split; [exact Hn |]. split; [vm_compute; reflexivity |].
  exact (proj1 (cache_images_shape ["x"; "y"] 2 Hn
                  (faulty (fun k => Z.of_nat k) [true]))).
Defined.

(** C9: duplicates in the category list collapse.  The keys of the mapping
    are exactly the distinct categories given, so there are as many keys as
    the list has distinct entries; and a category is mapped to the list
    built at its last occurrence: if the list is [pre ++ c :: post] with
    no [c] in [post], the value at [c] is what the inner loop builds for
    [c] in the world reached after [pre]. *)
Theorem cache_images_duplicates_collapse (categories : list string)
    (count : Z) (w : World) :
  exists m w',
    cache_images categories count w = (inr m, w') /\
    dom m = list_to_set categories /\
    size m = length (remove_dups categories) /\
    (forall pre c post m1 w1 urls w2,
       categories = (pre ++ c :: post)%list ->
       c ∉ post ->
       cache_loop pre count ∅ w = (inr m1, w1) ->
       cache_category c (range count) [] w1 = (inr urls, w2) ->
       m !! c = Some urls).
Proof.
  destruct (cache_images_run categories count w) as (m & w' & Hrun & Hdom & _).
  exists m, w'. split; [exact Hrun |]. split; [exact Hdom |]. split.
  - rewrite <- size_dom, Hdom, <- list_to_set_remove_dups.
    apply size_list_to_set, NoDup_remove_dups.
  - intros pre c post m1 w1 urls w2 -> Hpost Hpre Hc.
    unfold cache_images in Hrun.
    rewrite cache_loop_app in Hrun. unfold bind at 1 in Hrun.
    rewrite Hpre in Hrun. cbn [cache_loop] in Hrun.
    unfold bind at 1 in Hrun. rewrite Hc in Hrun.
    destruct (cache_loop_run post count (<[c:=urls]> m1) w2)
      as (m' & w'' & Hrun' & _ & _ & Hout).
    rewrite Hrun' in Hrun. injection Hrun as <- <-.
    rewrite (Hout c Hpost). apply lookup_insert_eq.
Qed.

(** Three categories, two of them equal: two keys, and ["x"] keeps the
    list of its second visit (token 1002, the third draw). *)
Lemma cache_images_duplicates_collapse_witness :
  fst (cache_images ["x"; "y"; "x"] 1 (quiet (fun k => Z.of_nat k)))
  = inr (<["x" := ["https://source.unsplash.com/800x600/?x&sig=1002"]]>
         (<["y" := ["https://source.unsplash.com/800x600/?y&sig=1001"]]> ∅)) /\
  exists m w',
    cache_images ["x"; "y"; "x"] 1 (quiet (fun k => Z.of_nat k)) = (inr m, w') /\
    size m = 2%nat /\
    m !! "x" = Some ["https://source.unsplash.com/800x600/?x&sig=1002"].
Proof.
  split; [vm_compute; reflexivity |].
  destruct (cache_images_duplicates_collapse ["x"; "y"; "x"] 1
              (quiet (fun k => Z.of_nat k)))
    as (m & w' & Hrun & _ & Hsize & Hlast).
  exists m, w'. split; [exact Hrun |]. split; [exact Hsize |].
  apply (Hlast ["x"; "y"] "x" []
           (<["y" := ["https://source.unsplash.com/800x600/?y&sig=1001"]]>
            (<["x" := ["https://source.unsplash.com/800x600/?x&sig=1000"]]> ∅))
           (mkWorld (fun k => Z.of_nat k) 2 [] [] 2) _
           (mkWorld (fun k => Z.of_nat k) 3 [] [] 3)).
  - reflexivity.
  - apply not_elem_of_nil.
  - vm_compute. reflexivity.
  - vm_compute. reflexivity.
Defined.

(** C8: the profile holds exactly 8 skills, each with a name and a
    proficiency between 0 and 100, and there are exactly 6 projects. *)
Theorem content_cardinalities :
  length (PortfolioData.skills PortfolioData.get_profile) = 8%nat /\
  Forall (fun s => PortfolioData.skill_name s <> "" /\
                   0 <= PortfolioData.level s <= 100)
         (PortfolioData.skills PortfolioData.get_profile) /\
  length PortfolioData.get_projects = 6%nat.
Proof.
  split; [reflexivity |]. split; [| reflexivity].
  cbn [PortfolioData.skills PortfolioData.get_profile].
  repeat constructor; cbn; (discriminate || lia).
Qed.




End Claims.

(** * Further properties of the asset code *)

Section ResolverEffects.

Import ProfessionalAssetManager.

(** The hosts of the two kinds of URL. *)
Definition unsplash : string := "https://source.unsplash.com/".
Definition picsum : string := "https://picsum.photos/".

(** What the [try] suite of [get_ai_image] does to the world: it never
    prints and never changes the entropy; it sleeps once and draws once
    when it succeeds, and does not sleep when it raises. *)
Lemma get_ai_image_try_frame (index width height : Z) (w : World)
    (r : Py.exn + string) (w1 : World) :
  get_ai_image_try index width height w = (r, w1) ->
  entropy w1 = entropy w /\ stdout w1 = stdout w /\
  match r with
  | inr _ => sleeps w1 = S (sleeps w) /\ draws w1 = S (draws w)
  | inl e =>
      sleeps w1 = sleeps w /\
      (draws w <= draws w1 <= S (draws w))%nat /\
      ((exists what, e = forced what) \/
       e = Py.digit_limit /\
       (Py.fits width = false \/ Py.fits height = false))
  end.
Proof.
  destruct (rotate_run AI_CATEGORIES index w) as (category & _ & Hr);
    [discriminate |].
  unfold get_ai_image_try. unfold bind at 1. rewrite Hr. clear Hr.
  destruct w as [ent dr fl out sl]. cbn [entropy draws faults stdout sleeps].
  destruct (hd false fl);
    [intros [= <- <-]; cbn; repeat split; try lia; left; eexists; reflexivity |].
  do 3 (run_step; cbn [advance drawn faults];
        match goal with |- context [hd false ?l] => destruct (hd false l) end;
        [intros [= <- <-]; cbn; repeat split; try lia; left; eexists;
         reflexivity |]).
  destruct (Py.fits width), (Py.fits height); cbn [andb];
    unfold bind, sleep, ret; intros [= <- <-]; cbn; repeat split;
    try lia; right; auto.
Qed.

Lemma mod_int_shift (i k n : Z) :
  Py.mod_int (i + k * n) n = Py.mod_int i n.
Proof.
  unfold Py.mod_int. destruct (Z.eqb_spec n 0) as [->|Hn]; [reflexivity |].
  now rewrite Z.mod_add.
Qed.

(** X1: the resolvers are periodic in the index.  Shifting the index by
    any multiple of ten, forwards or backwards, changes nothing of what
    [ProfessionalAssetManager.get_ai_image] does, in any world, fallback
    included; the period of the resolver of [main.py] is eight. *)
Theorem get_ai_image_periodic (index k width height : Z) (w : World) :
  get_ai_image (index + k * 10) width height w = get_ai_image index width height w /\
  AssetManager.get_ai_image (index + k * 8) w = AssetManager.get_ai_image index w.
Proof.
  split.
  - unfold get_ai_image, get_ai_image_try, get_ai_image_except, rotate.
    change (Py.len AI_CATEGORIES) with 10.
    change (Py.len FALLBACK_IMAGES) with 5.
    rewrite (mod_int_shift index k 10).
    replace (index + k * 10) with (index + (k * 2) * 5) by lia.
    rewrite (mod_int_shift index (k * 2) 5). reflexivity.
  - unfold AssetManager.get_ai_image, AssetManager.get_ai_image_try, rotate.
    change (Py.len AssetManager.AI_CATEGORIES) with 8.
    rewrite (mod_int_shift index k 8). reflexivity.
Qed.

Lemma fallback_hosts (url : string) :
  In url FALLBACK_IMAGES ->
  Py.startswith picsum url = true /\ Py.startswith unsplash url = false.
Proof.
  intros H. repeat (destruct H as [<-|H]; [split; reflexivity |]).
  destruct H.
Qed.

(** X2: the host of the URL tells the caller how a resolution ended.
    [get_ai_image] returns a URL on the image-search host exactly when its
    [try] suite succeeded and a URL on the placeholder host exactly when
    it raised; no URL is on both. *)
Theorem get_ai_image_host_tells_outcome (index width height : Z) (w : World) :
  exists url w',
    get_ai_image index width height w = (inr url, w') /\
    match fst (get_ai_image_try index width height w) with
    | inr _ => Py.startswith unsplash url = true /\
               Py.startswith picsum url = false
    | inl _ => Py.startswith picsum url = true /\
               Py.startswith unsplash url = false
    end.
Proof.
  unfold get_ai_image, try_except.
  destruct (get_ai_image_try index width height w) as [[e|url] w1] eqn:E;
    cbn [fst].
  - destruct (get_ai_image_except_run index e w1) as (url & w' & Hn & Hr).
    exists url, w'. split; [exact Hr |].
    apply fallback_hosts. eapply nth_error_In, Hn.
  - exists url, w1. split; [reflexivity |].
    destruct (get_ai_image_try_run index width height w) as (c & _ & Hok & _).
    rewrite (proj1 (Hok _ _ E)). unfold ai_url. split; reflexivity.
Qed.

(** X3: every resolution either sleeps or logs, never both.  When the
    [try] suite of [get_ai_image] succeeds the call sleeps once, draws one
    token and prints nothing; when it raises the call prints exactly one
    line, ["Error fetching AI image: "] followed by the text of the
    exception, and does not sleep.  The entropy source is never changed. *)
Theorem get_ai_image_sleeps_or_logs (index width height : Z) (w : World) :
  exists url w',
    get_ai_image index width height w = (inr url, w') /\
    entropy w' = entropy w /\
    match fst (get_ai_image_try index width height w) with
    | inr _ =>
        sleeps w' = S (sleeps w) /\ stdout w' = stdout w /\
        draws w' = S (draws w)
    | inl e =>
        sleeps w' = sleeps w /\
        stdout w' =
          (stdout w ++ [("Error fetching AI image: " ++ Py.exn_str e)%string])%list /\
        (draws w <= draws w' <= S (draws w))%nat
    end.
Proof.
  unfold get_ai_image, try_except.
  destruct (get_ai_image_try index width height w) as [[e|url] w1] eqn:E;
    cbn [fst];
    destruct (get_ai_image_try_frame _ _ _ _ _ _ E) as (He & Ho & Hrest).
  - destruct Hrest as (Hs & Hd & _).
    destruct (getitem_mod FALLBACK_IMAGES index) as (url & _ & Hm & Hg);
      [discriminate |].
    unfold get_ai_image_except, bind, print, lift. rewrite Hm, Hg.
    eexists. eexists. split; [reflexivity |].
    cbn [entropy stdout sleeps draws]. rewrite Ho. auto.
  - destruct Hrest as (Hs & Hd).
    exists url, w1. auto.
Qed.

End ResolverEffects.

Section HeroAndProfile.

Import ProfessionalAssetManager.

(** The URL the handlers of [get_hero_image] and [get_profile_image]
    format. *)
Definition picsum_url (width height n : Z) : string :=
  "https://picsum.photos/" ++ Py.decimal width ++ "/" ++ Py.decimal height ++
  "?random=" ++ Py.decimal n.

(** How many faults a world still holds. *)
Definition injected (w : World) : nat :=
  length (List.filter (fun b : bool => b) (faults w)).

Lemma picsum_except_run (what : string) (width height : Z) (e : Py.exn)
    (w : World) (url : string) (w' : World) :
  picsum_except what width height e w = (inr url, w') ->
  exists n, 1 <= n <= 1000 /\ url = picsum_url width height n.
Proof.
  unfold picsum_except. unfold bind at 1. unfold print at 1.
  destruct w as [ent dr fl out sl]. cbn [entropy draws faults stdout sleeps].
  unfold bind at 1, lift at 1, Py.str_int at 1.
  destruct (Py.fits width); [| discriminate].
  unfold bind at 1, lift at 1, Py.str_int at 1.
  destruct (Py.fits height); [| discriminate].
  run_step. cbn [entropy draws faults].
  destruct (hd false fl); [discriminate |].
  rewrite fstring_run. cbn [advance drawn faults].
  destruct (hd false (tl fl)); [discriminate |].
  rewrite fjoin_texts by (apply fits_token; lia).
  intros [= <- _]. eexists. split; [| reflexivity].
  apply randint_range. lia.
Qed.

Lemma dims_in_url (a b c : string) (width height : Z) :
  Py.contains (Py.decimal width)
    (a ++ Py.decimal width ++ b ++ Py.decimal height ++ c) = true /\
  Py.contains (Py.decimal height)
    (a ++ Py.decimal width ++ b ++ Py.decimal height ++ c) = true.
Proof.
  split; [apply contains_here |].
  rewrite <- (append_assoc a (Py.decimal width)).
  rewrite <- (append_assoc _ b).
  apply contains_here.
Qed.

Ltac no_space :=
  repeat rewrite has_char_app;
  repeat rewrite (decimal_chars " ") by (reflexivity || discriminate);
  reflexivity.

(** X4: whatever [get_hero_image] and [get_profile_image] return, in any
    world, shows the width and the height that were asked for and holds
    no space: the fallback of these two is formatted from the arguments,
    unlike the fixed 800 by 600 entries [get_ai_image] falls back to. *)
Theorem hero_profile_url_shows_dimensions (width height : Z) (w : World)
    (url : string) (w' : World)
    (Hrun : get_hero_image width height w = (inr url, w') \/
            get_profile_image width height w = (inr url, w')) :
  Py.contains (Py.decimal width) url = true /\
  Py.contains (Py.decimal height) url = true /\
  Py.has_char " " url = false.
Proof.
  assert (Hshape :
    (exists seed, url = hero_url width height seed) \/
    (exists seed, url = profile_url width height seed) \/
    (exists n, url = picsum_url width height n)).
  { destruct Hrun as [H|H].
    - unfold get_hero_image, try_except in H.
      destruct (get_hero_image_try width height w) as [[e|u] w1] eqn:E.
      + destruct (picsum_except_run _ _ _ _ _ _ _ H) as (n & _ & ->). eauto.
      + injection H as <- <-. left. eexists.
        exact (get_hero_image_try_run _ _ _ _ _ E).
    - unfold get_profile_image, try_except in H.
      destruct (get_profile_image_try width height w) as [[e|u] w1] eqn:E.
      + destruct (picsum_except_run _ _ _ _ _ _ _ H) as (n & _ & ->). eauto.
      + injection H as <- <-. right. left. eexists.
        exact (get_profile_image_try_run _ _ _ _ _ E). }
  destruct Hshape as [[seed ->]|[[seed ->]|[n ->]]];
    unfold hero_url, profile_url, picsum_url;
    (split; [apply dims_in_url | split; [apply dims_in_url | no_space]]).
Qed.

Lemma hero_profile_url_shows_dimensions_witness :
  Py.contains "1920" "https://picsum.photos/1920/1080?random=1" = true /\
  Py.contains "1080" "https://picsum.photos/1920/1080?random=1" = true /\
  Py.has_char " " "https://picsum.photos/1920/1080?random=1" = false.
Proof.
  apply (hero_profile_url_shows_dimensions 1920 1080
           (faulty (fun _ => 0) [true]) _
           (mkWorld (fun _ => 0) 1 [] ["Error fetching hero image: forced failure: random.randint"] 0)).
  left. reflexivity.
Defined.

(** The [try] suites of [get_hero_image] and [get_profile_image], step by
    step: the draw, then the f-string with the width, the height and the
    token. *)
Lemma dims_try_run (a b : Z) (c : string) (width height : Z) (w : World) :
  0 <= a -> a <= b -> b < 100000 ->
  (let! seed := randint a b in
   fstring [ Py.Lit "https://source.unsplash.com/"; Py.Val (Py.str_int width);
             Py.Lit "x"; Py.Val (Py.str_int height); Py.Lit c;
             Py.Val (Py.str_int seed) ]) w =
  if hd false (faults w) then (inl (forced "random.randint"), advance w)
  else (if hd false (tl (faults w)) then inl (forced "f-string")
        else if Py.fits width && Py.fits height
             then inr ("https://source.unsplash.com/" ++ Py.decimal width ++ "x" ++
                       Py.decimal height ++ c ++ Py.decimal (token a b w))
             else inl Py.digit_limit,
        advance (drawn (advance w))).
Proof.
  intros Ha Hab Hb. run_step.
  destruct (hd false (faults w)); [reflexivity |].
  rewrite fstring_run. cbn [advance drawn faults].
  rewrite fjoin_dims by (apply fits_token; lia). reflexivity.
Qed.

(** The handler succeeds when the width and the height can be formatted
    and neither its draw nor its formatting is made to fail. *)
Lemma picsum_except_quiet (what : string) (width height : Z) (e : Py.exn)
    (w : World) :
  Py.fits width = true -> Py.fits height = true ->
  hd false (faults w) = false -> hd false (tl (faults w)) = false ->
  exists w',
    picsum_except what width height e w =
    (inr (picsum_url width height (token 1 1000 w)), w').
Proof.
  intros Hw Hh H1 H2.
  unfold picsum_except. unfold bind at 1. unfold print at 1.
  destruct w as [ent dr fl out sl]. cbn [entropy draws faults stdout sleeps] in *.
  unfold bind at 1, lift at 1, Py.str_int at 1. rewrite Hw.
  unfold bind at 1, lift at 1, Py.str_int at 1. rewrite Hh.
  run_step. cbn [entropy draws faults]. rewrite H1.
  rewrite fstring_run. cbn [advance drawn faults]. rewrite H2.
  rewrite fjoin_texts by (apply fits_token; lia).
  eexists. reflexivity.
Qed.

(** The handler raises, before it draws, when the width or the height
    cannot be formatted. *)
Lemma picsum_except_oversized (what : string) (width height : Z) (e : Py.exn)
    (w : World) :
  Py.fits width = false \/ Py.fits height = false ->
  exists w', picsum_except what width height e w = (inl Py.digit_limit, w') /\
             draws w' = draws w.
Proof.
  intros H.
  unfold picsum_except. unfold bind at 1. unfold print at 1.
  unfold bind at 1, lift at 1, Py.str_int at 1.
  destruct (Py.fits width).
  - destruct H as [H|H]; [discriminate |].
    unfold bind at 1, lift at 1, Py.str_int at 1. rewrite H.
    eexists. split; reflexivity.
  - eexists. split; reflexivity.
Qed.

(** Runs a [try] suite of the shape of [dims_try_run] and its handler on a
    fault plan given flag by flag. *)
Ltac absorb Hw Hh :=
  rewrite dims_try_run by lia; rewrite Hw, Hh;
  cbn [andb hd tl faults];
  first [ eexists; eexists; reflexivity
        | edestruct picsum_except_quiet as [? ->];
          [exact Hw | exact Hh | reflexivity | reflexivity | eauto] ].

(** X5: one forced failure is always absorbed.  In a world whose fault
    plan holds at most one fault, [get_hero_image] and [get_profile_image]
    return a URL when the width and the height have at most 4300 digits,
    and so does the resolver of [main.py]: an exception can then only
    reach their caller when a second fault hits the handler.  When the
    width or the height has more digits, [get_hero_image] and
    [get_profile_image] raise [ValueError] in every world: neither the
    [try] suite nor the handler can format the number. *)
Theorem single_fault_is_absorbed (index width height : Z) (w : World)
    (Hone : (injected w <= 1)%nat) :
  (Py.fits width = true -> Py.fits height = true ->
   (exists url w', get_hero_image width height w = (inr url, w')) /\
   (exists url w', get_profile_image width height w = (inr url, w'))) /\
  (Py.fits width = false \/ Py.fits height = false ->
   (exists w', get_hero_image width height w = (inl Py.digit_limit, w')) /\
   (exists w', get_profile_image width height w = (inl Py.digit_limit, w'))) /\
  (exists url w', AssetManager.get_ai_image index w = (inr url, w')).
Proof.
  unfold injected in Hone.
  split; [| split].
  - intros Hw Hh.
    destruct w as [ent dr fl out sl]. cbn [faults] in *.
    unfold get_hero_image, get_profile_image, try_except,
      get_hero_image_try, get_profile_image_try.
    split;
      destruct fl as [|b1 [|b2 [|b3 [|b4 fl]]]];
      repeat match goal with b : bool |- _ => destruct b end;
      cbn in Hone; try lia; absorb Hw Hh.
  - intros Hbig.
    assert (F : Py.fits width && Py.fits height = false)
      by (destruct Hbig as [-> | ->]; [reflexivity | apply andb_false_r]).
    unfold get_hero_image, get_profile_image, try_except,
      get_hero_image_try, get_profile_image_try.
    split; rewrite dims_try_run by lia; rewrite F;
      destruct (hd false (faults w)), (hd false (tl (faults w)));
      edestruct picsum_except_oversized as (w' & -> & _); eauto.
  - destruct (rotate_run AssetManager.AI_CATEGORIES index w) as (c & _ & Hr);
      [discriminate |].
    unfold AssetManager.get_ai_image, AssetManager.get_ai_image_try,
      try_except.
    unfold bind at 1. rewrite Hr. clear Hr.
    destruct w as [ent dr fl out sl]. cbn [faults] in *.
    destruct fl as [|b1 [|b2 [|b3 [|b4 [|b5 fl]]]]];
      repeat match goal with b : bool |- _ => destruct b end;
      cbn in Hone; try lia;
      cbn [hd tl faults advance drawn entropy draws];
      repeat (run_step; cbn [hd tl faults advance drawn entropy draws]);
      cbv beta iota;
      first [ eexists; eexists; reflexivity
            | edestruct inline_get_ai_image_except_run as [? ->];
              [reflexivity | reflexivity | eauto] ].
Qed.

Lemma single_fault_is_absorbed_witness :
  le (injected (faulty (fun _ => 41) [false; true])) 1 /\
  fst (get_hero_image 1200 600 (faulty (fun _ => 41) [false; true]))
    = inr "https://picsum.photos/1200/600?random=42" /\
  (exists url w',
     get_profile_image 400 400 (faulty (fun _ => 41) [false; true])
     = (inr url, w')) /\
  exists url w',
    AssetManager.get_ai_image 3 (faulty (fun _ => 41) [false; true])
    = (inr url, w').
Proof.
  assert (H : le (injected (faulty (fun _ => 41) [false; true])) 1)
    by (vm_compute; lia).
  split; [exact H |]. split; [vm_compute; reflexivity |].
  destruct (single_fault_is_absorbed 3 400 400 _ H) as (Hok & _ & Hinline).
  split; [| exact Hinline].
  exact (proj2 (Hok (fits_small 400 ltac:(lia)) (fits_small 400 ltac:(lia)))).
Defined.

(** X6: [get_hero_image] of [main.py] never raises: its handler only
    prints and returns a constant.  In every world the result is the
    formatted URL with a token from 10000 to 99999, or the fixed
    placeholder ["https://picsum.photos/1200/600"]. *)
Theorem inline_hero_never_raises (w : World) :
  exists url w',
    AssetManager.get_hero_image w = (inr url, w') /\
    (url = "https://picsum.photos/1200/600" \/
     exists seed,
       10000 <= seed <= 99999 /\
       url = "https://source.unsplash.com/1200x600/?artificial+intelligence+technology&sig="
             ++ Py.decimal seed).
Proof.
  unfold AssetManager.get_hero_image, try_except,
    AssetManager.get_hero_image_try.
  destruct w as [ent dr fl out sl].
  run_step. cbn [entropy draws faults].
  destruct (hd false fl).
  - eexists. eexists. split; [reflexivity |]. now left.
  - rewrite fstring_run. cbn [advance drawn faults].
    rewrite fjoin_token by (apply fits_token; lia).
    destruct (hd false (tl fl)).
    + eexists. eexists. split; [reflexivity |]. now left.
    + eexists. eexists. split; [reflexivity |]. right.
      eexists. split; [| reflexivity]. apply randint_range. lia.
Qed.

End HeroAndProfile.

Section BatchEffects.

Import ProfessionalAssetManager.

(** The token of the [j]-th draw after the present one. *)
Definition token_at (w : World) (j : nat) : Z :=
  1000 + entropy w (draws w + j)%nat mod (9999 - 1000 + 1).

(** The world after [k] successful passes of the batch: [k] draws and [k]
    sleeps later, nothing printed. *)
Definition after_passes (w : World) (k : nat) : World :=
  mkWorld (entropy w) (draws w + k) [] (stdout w) (sleeps w + k).

(** One pass, handler included, either sleeps or prints one line. *)
Lemma cache_item_frame (category : string) (i : Z) (imgs : list string)
    (w : World) (r : Py.exn + list string) (w' : World) :
  try_except (cache_item_try category imgs)
             (cache_item_except category i imgs) w = (r, w') ->
  entropy w' = entropy w /\
  (sleeps w' + length (stdout w') = S (sleeps w + length (stdout w)))%nat /\
  (draws w <= draws w' <= S (draws w))%nat.
Proof.
  destruct (getitem_mod FALLBACK_IMAGES i) as (u & _ & Hm & Hg);
    [discriminate |].
  unfold try_except, cache_item_try, cache_item_except.
  destruct w as [ent dr fl out sl]. cbn [entropy draws faults stdout sleeps].
  do 3 (run_step; cbn [advance drawn faults entropy draws];
        match goal with |- context [hd false ?l] => destruct (hd false l) end;
        [unfold bind, print, lift, ret; rewrite Hm, Hg;
         intros [= <- <-]; cbn [entropy draws stdout sleeps];
         rewrite length_app; cbn [length]; repeat split; lia |]).
  unfold bind, sleep, ret. intros [= <- <-].
  cbn [entropy draws stdout sleeps]. repeat split; lia.
Qed.

Lemma cache_item_quiet (category : string) (i : Z) (imgs : list string)
    (w : World) :
  faults w = [] ->
  try_except (cache_item_try category imgs)
             (cache_item_except category i imgs) w
  = (inr (imgs ++ [batch_url category (token_at w 0)])%list, after_passes w 1).
Proof.
  intros Hq. unfold try_except, cache_item_try, token_at, after_passes.
  destruct w as [ent dr fl out sl]. cbn [entropy draws faults stdout sleeps] in *.
  subst fl.
  do 3 (run_step; cbn [advance drawn faults tl hd entropy draws stdout sleeps]).
  unfold bind, sleep, ret. cbn [entropy draws faults stdout sleeps].
  rewrite Nat.add_0_r, !Nat.add_1_r. reflexivity.
Qed.

Lemma cache_category_frame (category : string) (indices : list Z)
    (imgs : list string) (w : World) (r : Py.exn + list string) (w' : World) :
  cache_category category indices imgs w = (r, w') ->
  entropy w' = entropy w /\
  (sleeps w' + length (stdout w') =
   sleeps w + length (stdout w) + length indices)%nat /\
  (draws w <= draws w' <= draws w + length indices)%nat.
Proof.
  revert imgs w. induction indices as [|i rest IH]; intros imgs w.
  - cbn [cache_category]. unfold ret. intros [= <- <-].
    cbn [length]. repeat split; lia.
  - cbn [cache_category]. unfold bind.
    destruct (cache_item_run category i imgs w) as (u & w1 & E & _).
    rewrite E. intros H.
    destruct (cache_item_frame _ _ _ _ _ _ E) as (He & Hs & Hd).
    destruct (IH _ _ H) as (He' & Hs' & Hd').
    cbn [length]. repeat split; (congruence || lia).
Qed.

Lemma cache_category_quiet (category : string) (indices : list Z)
    (imgs : list string) (w : World) :
  faults w = [] ->
  cache_category category indices imgs w =
  (inr (imgs ++ map (fun j => batch_url category (token_at w j))
                    (seq 0 (length indices)))%list,
   after_passes w (length indices)).
Proof.
  revert imgs w. induction indices as [|i rest IH]; intros imgs w Hq.
  - cbn [cache_category length seq map]. unfold ret, after_passes.
    rewrite app_nil_r, !Nat.add_0_r.
    destruct w as [ent dr fl out sl]. cbn in *. now subst fl.
  - cbn [cache_category]. unfold bind.
    rewrite (cache_item_quiet category i imgs w Hq).
    rewrite IH by reflexivity.
    cbn [length seq map]. rewrite <- app_assoc. cbn [app].
    rewrite <- seq_shift, map_map.
    unfold after_passes, token_at. cbn [entropy draws stdout sleeps].
    f_equal; [f_equal; f_equal; f_equal |].
    + apply map_ext. intros j. do 4 f_equal. lia.
    + f_equal; lia.
Qed.

Lemma cache_loop_frame (categories : list string) (count : Z)
    (m : gmap string (list string)) (w : World)
    (r : Py.exn + gmap string (list string)) (w' : World) :
  cache_loop categories count m w = (r, w') ->
  entropy w' = entropy w /\
  (sleeps w' + length (stdout w') =
   sleeps w + length (stdout w) + length categories * length (range count))%nat /\
  (draws w <= draws w' <= draws w + length categories * length (range count))%nat.
Proof.
  revert m w. induction categories as [|c rest IH]; intros m w.
  - cbn [cache_loop]. unfold ret. intros [= <- <-].
    cbn [length]. repeat split; lia.
  - cbn [cache_loop]. unfold bind.
    destruct (cache_category_run c (range count) [] w) as (urls & w1 & E & _).
    rewrite E. cbn [app]. intros H.
    destruct (cache_category_frame _ _ _ _ _ _ E) as (He & Hs & Hd).
    destruct (IH _ _ H) as (He' & Hs' & Hd').
    cbn [length]. repeat split; (congruence || lia).
Qed.

Lemma cache_loop_quiet (categories : list string) (count : Z)
    (m : gmap string (list string)) (w : World) :
  faults w = [] ->
  exists m',
    cache_loop categories count m w =
    (inr m', after_passes w (length categories * length (range count))).
Proof.
  revert m w. induction categories as [|c rest IH]; intros m w Hq.
  - exists m. cbn [cache_loop length]. unfold ret, after_passes.
    cbn [Nat.mul]. rewrite !Nat.add_0_r.
    destruct w as [ent dr fl out sl]. cbn in *. now subst fl.
  - cbn [cache_loop]. unfold bind.
    rewrite (cache_category_quiet c (range count) [] w Hq).
    destruct (IH (<[c:=([] ++ map (fun j => batch_url c (token_at w j))
                              (seq 0 (length (range count))))%list]> m)
                 (after_passes w (length (range count))) eq_refl)
      as (m' & ->).
    exists m'. unfold after_passes. cbn [entropy draws stdout sleeps length].
    do 2 f_equal; lia.
Qed.

Lemma range_nonpositive (count : Z) : count <= 0 -> range count = [].
Proof.
  intros H. unfold range.
  replace (Z.to_nat count) with O by lia. reflexivity.
Qed.

Lemma cache_loop_idle (categories : list string) (count : Z)
    (m : gmap string (list string)) (w : World) :
  range count = [] ->
  exists m', cache_loop categories count m w = (inr m', w).
Proof.
  intros Hr. revert m. induction categories as [|c rest IH]; intros m.
  - exists m. reflexivity.
  - cbn [cache_loop]. unfold bind. rewrite Hr. cbn [cache_category].
    unfold ret. apply IH.
Qed.

(** X7: with a count of zero or less the batch does no work.  Every
    category given still becomes a key, each mapped to the empty list, and
    the world is left as it was: nothing is drawn, printed or slept, and no
    fault of the plan is consumed. *)
Theorem cache_images_nonpositive_count (categories : list string) (count : Z)
    (w : World) (Hcount : count <= 0) :
  exists m,
    cache_images categories count w = (inr m, w) /\
    dom m = list_to_set categories /\
    (forall c, c ∈ categories -> m !! c = Some []).
Proof.
  pose proof (range_nonpositive count Hcount) as Hr.
  destruct (cache_loop_idle categories count ∅ w Hr) as (m & E).
  destruct (cache_images_run categories count w) as (m0 & w0 & E0 & Hdom & Hall).
  unfold cache_images in *. rewrite E in E0. injection E0 as <- <-.
  exists m. split; [exact E |]. split; [exact Hdom |].
  intros c Hc.
  assert (Hs : is_Some (m !! c)).
  { apply elem_of_dom. rewrite Hdom. now apply elem_of_list_to_set. }
  destruct Hs as [urls Hu]. rewrite Hu. f_equal.
  destruct (Hall c urls Hu) as (_ & Hlen & _).
  rewrite Hr in Hlen. now destruct urls.
Qed.

Lemma cache_images_nonpositive_count_witness :
  -3 <= 0 /\
  cache_images ["x"; "y"] (-3) (faulty (fun _ => 5) [true; true])
  = (inr (<["y" := []]> (<["x" := []]> ∅)), faulty (fun _ => 5) [true; true]).
Proof.
  assert (H : -3 <= 0) by lia. split; [exact H |].
  destruct (cache_images_nonpositive_count ["x"; "y"] (-3)
              (faulty (fun _ => 5) [true; true]) H) as (m & E & _ & _).
  rewrite E. f_equal. f_equal.
  vm_compute in E. now injection E as <-.
Defined.

(** X8: the batch pays for every URL with one sleep or one log line.  For
    a count [n >= 0] and [k] categories, in any world, the sleeps and the
    printed lines grow together by exactly [k * n], at most [k * n] tokens
    are drawn and the entropy source is untouched; without injected faults
    that is [k * n] sleeps, [k * n] draws and nothing printed. *)
Theorem cache_images_sleeps_or_logs (categories : list string) (n : Z)
    (Hn : 0 <= n) (w : World) :
  exists m w',
    cache_images categories n w = (inr m, w') /\
    entropy w' = entropy w /\
    (sleeps w' + length (stdout w') =
     sleeps w + length (stdout w) + length categories * Z.to_nat n)%nat /\
    (draws w <= draws w' <= draws w + length categories * Z.to_nat n)%nat /\
    (faults w = [] ->
     sleeps w' = (sleeps w + length categories * Z.to_nat n)%nat /\
     draws w' = (draws w + length categories * Z.to_nat n)%nat /\
     stdout w' = stdout w).
Proof.
  assert (Hlen : length (range n) = Z.to_nat n).
  { unfold range. now rewrite length_map, length_seq. }
  destruct (cache_images_run categories n w) as (m & w' & E & _).
  exists m, w'. split; [exact E |].
  unfold cache_images in E.
  destruct (cache_loop_frame _ _ _ _ _ _ E) as (He & Hs & Hd).
  rewrite Hlen in Hs, Hd.
  split; [exact He |]. split; [exact Hs |]. split; [exact Hd |].
  intros Hq. destruct (cache_loop_quiet categories n ∅ w Hq) as (m' & E').
  rewrite E' in E. injection E as _ <-. rewrite Hlen.
  unfold after_passes. cbn [sleeps draws stdout]. auto.
Qed.

Lemma cache_images_sleeps_or_logs_witness :
  0 <= 2 /\
  exists m w',
    cache_images ["a"; "b"; "c"] 2 (faulty (fun _ => 0) [false; true]) = (inr m, w') /\
    sleeps w' = 5%nat /\ length (stdout w') = 1%nat /\ draws w' = 6%nat.
Proof.
  assert (H : 0 <= 2) by lia. split; [exact H |].
  destruct (cache_images_sleeps_or_logs ["a"; "b"; "c"] 2 H
              (faulty (fun _ => 0) [false; true]))
    as (m & w' & E & _ & _ & _ & _).
  exists m, w'. split; [exact E |].
  vm_compute in E. injection E as _ <-. repeat split; reflexivity.
Defined.

(** X9: the batch and the resolver agree.  Without injected faults, the
    URL [get_ai_image] returns for an index at the default 800 by 600 is
    the very URL [cache_images] stores for the category of that index when
    asked for one image of it in the same world. *)
Theorem batch_agrees_with_resolver (index : Z) (w : World)
    (Hq : faults w = []) :
  exists category url w1 w2,
    nth_error AI_CATEGORIES (Z.to_nat (index mod Py.len AI_CATEGORIES))
      = Some category /\
    get_ai_image index 800 600 w = (inr url, w1) /\
    cache_images [category] 1 w = (inr {[ category := [url] ]}, w2).
Proof.
  destruct (get_ai_image_try_run index 800 600 w) as (c & Hc & _ & Hrun).
  destruct (Hrun Hq (fits_small 800 ltac:(lia)) (fits_small 600 ltac:(lia)))
    as (w1 & E).
  exists c, (ai_url 800 600 c (token 1000 9999 w)), w1.
  eexists. split; [exact Hc |].
  split; [unfold get_ai_image, try_except; now rewrite E |].
  unfold cache_images. cbn [cache_loop]. unfold bind.
  change (range 1) with [0].
  rewrite (cache_category_quiet c [0] [] w Hq).
  unfold ret. cbn [length seq map app].
  rewrite insert_empty. unfold token_at, token.
  rewrite Nat.add_0_r. reflexivity.
Qed.

Lemma batch_agrees_with_resolver_witness :
  faults (quiet (fun _ => 77)) = [] /\
  fst (get_ai_image 4 800 600 (quiet (fun _ => 77)))
    = inr "https://source.unsplash.com/800x600/?technology&sig=1077" /\
  fst (cache_images ["technology"] 1 (quiet (fun _ => 77)))
    = inr {[ "technology" := ["https://source.unsplash.com/800x600/?technology&sig=1077"] ]}.
Proof.
  split; [reflexivity |].
  destruct (batch_agrees_with_resolver 4 (quiet (fun _ => 77)) eq_refl)
    as (c & url & w1 & w2 & Hc & E1 & E2).
  vm_compute in Hc. injection Hc as <-.
  rewrite E1, E2. cbn [fst].
  vm_compute in E1. injection E1 as <- _. split; reflexivity.
Defined.

(** X10: with a deterministic generator the batch is fully determined.
    Without injected faults and for a count [n >= 0], the list stored for
    a category whose last occurrence is at position [p] of the input holds
    [n] URLs, the [j]-th formatted with the token of draw number
    [p * n + j] counted from the start of the call. *)
Theorem cache_images_uses_draws_in_order (pre post : list string)
    (c : string) (n : Z) (w : World)
    (Hn : 0 <= n) (Hq : faults w = []) (Hlast : c ∉ post) :
  exists m w',
    cache_images (pre ++ c :: post) n w = (inr m, w') /\
    m !! c = Some (map (fun j => batch_url c
                                   (token_at w (length pre * Z.to_nat n + j)))
                       (seq 0 (Z.to_nat n))).
Proof.
  assert (Hlen : length (range n) = Z.to_nat n).
  { unfold range. now rewrite length_map, length_seq. }
  unfold cache_images. rewrite cache_loop_app. unfold bind at 1.
  destruct (cache_loop_quiet pre n ∅ w Hq) as (m1 & ->).
  cbn [cache_loop]. unfold bind at 1.
  rewrite (cache_category_quiet c (range n) []
             (after_passes w (length pre * length (range n))) eq_refl).
  cbn [app]. rewrite Hlen.
  match goal with
  | |- context [cache_loop post n ?m0 ?w0] =>
      destruct (cache_loop_run post n m0 w0) as (m & w' & -> & _ & _ & Hout)
  end.
  exists m, w'. split; [reflexivity |].
  rewrite (Hout c Hlast), lookup_insert_eq. f_equal.
  apply map_ext. intros j. unfold token_at, after_passes.
  cbn [entropy draws]. do 4 f_equal. lia.
Qed.

Lemma cache_images_uses_draws_in_order_witness :
  0 <= 2 /\ faults (quiet (fun k => Z.of_nat k)) = [] /\
  exists m w',
    cache_images ["x"; "y"; "x"; "z"] 2 (quiet (fun k => Z.of_nat k)) = (inr m, w') /\
    m !! "x" = Some ["https://source.unsplash.com/800x600/?x&sig=1004";
                     "https://source.unsplash.com/800x600/?x&sig=1005"].
Proof.
  assert (Hn : 0 <= 2) by lia.
  split; [exact Hn |]. split; [reflexivity |].
  assert (Hz : "x" ∉ ["z"]).
  { intros H. apply elem_of_cons in H as [H|H]; [discriminate |].
    now apply not_elem_of_nil in H. }
  exact (cache_images_uses_draws_in_order ["x"; "y"] ["z"] "x" 2
           (quiet (fun k => Z.of_nat k)) Hn eq_refl Hz).
Defined.

End BatchEffects.

Section PlaceholderMore.

Import ProfessionalAssetManager.

(** The string read backwards, and [s.endswith(p)] through it. *)
Fixpoint srev (s : string) : string :=
  match s with
  | EmptyString => EmptyString
  | String c s' => srev s' ++ String c EmptyString
  end.

Definition endswith (p s : string) : bool := Py.startswith (srev p) (srev s).

Lemma srev_app (a b : string) : srev (a ++ b) = srev b ++ srev a.
Proof.
  induction a as [|c a IH]; cbn [String.append srev].
  - now rewrite append_nil_r.
  - now rewrite IH, append_assoc.
Qed.

(** The opening tag of the text element. *)
Definition text_open : string :=
  "<text x='50%' y='50%' dominant-baseline='middle' text-anchor='middle' font-family='sans-serif' font-size='24' fill='#ffffff'>".

(** X11: the label goes into the graphic as it is, unescaped.  Whenever
    [get_placeholder_svg] returns for a width and height, there are a head
    and a tail, the same for every label, such that the graphic for any
    label, markup included, is the head, the opening text tag, the label,
    the closing tag and the tail. *)
Theorem placeholder_label_is_verbatim (width height : Z) (text s : string)
    (Hrun : get_placeholder_svg width height text = inr s) :
  exists head tail,
    s = head ++ text_open ++ text ++ "</text>" ++ tail /\
    forall text',
      get_placeholder_svg width height text' =
      inr (head ++ text_open ++ text' ++ "</text>" ++ tail).
Proof.
  pose proof (get_placeholder_svg_run width height text) as H.
  rewrite Hrun in H.
  destruct H as (Hw & Hh & h3 & h23 & w3 & w23 & E1 & E2 & E3 & E4 & ->).
  exists (svg_head (Py.decimal width) (Py.decimal height)),
         (svg_tail (Py.decimal width) (Py.decimal height)
                   (Py.repr_float h3) (Py.repr_float h23)
                   (Py.repr_float w3) (Py.repr_float w23)).
  split; [apply svg_markup_label |].
  intros text'.
  rewrite (get_placeholder_svg_eq width height text' h3 h23 w3 w23)
    by assumption.
  f_equal. apply svg_markup_label.
Qed.

Lemma placeholder_label_is_verbatim_witness :
  exists head tail,
    forall text',
      get_placeholder_svg 30 30 text' =
      inr (head ++ text_open ++ text' ++ "</text>" ++ tail).
Proof.
  assert (E : exists s, get_placeholder_svg 30 30 "<b>&</b>" = inr s)
    by (eexists; vm_compute; reflexivity).
  destruct E as [s E].
  destruct (placeholder_label_is_verbatim 30 30 "<b>&</b>" s E)
    as (head & tail & _ & H).
  exists head, tail. exact H.
Defined.

Lemma startswith_app_same (a p s : string) :
  Py.startswith (a ++ p) (a ++ s) = Py.startswith p s.
Proof.
  induction a as [|c a IH]; cbn [String.append Py.startswith];
    [reflexivity |].
  now rewrite Ascii.eqb_refl, IH.
Qed.

Ltac eval_quoted :=
  repeat match goal with
         | |- context [Py.dq ?s] =>
             let v := eval vm_compute in (Py.dq s) in
             change (Py.dq s) with v
         end.

Lemma svg_markup_root (w h h3 h23 w3 w23 text_color text : string) :
  plain w -> plain h -> plain h3 -> plain h23 -> plain w3 -> plain w23 ->
  plain text_color -> plain text ->
  Py.startswith ("<svg width='" ++ w ++ "' height='" ++ h ++ "' ")
                (svg_markup w h h3 h23 w3 w23 text_color text) = true /\
  Py.occurrences "<svg " (svg_markup w h h3 h23 w3 w23 text_color text) = 1%nat /\
  Py.occurrences "</svg>" (svg_markup w h h3 h23 w3 w23 text_color text) = 1%nat /\
  endswith "</svg>" (svg_markup w h h3 h23 w3 w23 text_color text) = true.
Proof.
  unfold plain. intros Hw Hh Hh3 Hh23 Hw3 Hw23 Htc Ht.
  unfold svg_markup. eval_quoted.
  split; [| split; [| split]].
  - rewrite (startswith_app_same "<svg width='"), (startswith_app_same w),
      (startswith_app_same "' height='"), (startswith_app_same h).
    reflexivity.
  - repeat first
      [ rewrite occ_skip by assumption
      | erewrite occ_lit_sound by (vm_compute; reflexivity) ];
    vm_compute; reflexivity.
  - repeat first
      [ rewrite occ_skip by assumption
      | erewrite occ_lit_sound by (vm_compute; reflexivity) ];
    vm_compute; reflexivity.
  - unfold endswith. repeat rewrite srev_app. repeat rewrite append_assoc.
    apply decide_prefix_sound. vm_compute. reflexivity.
Qed.

(** X12: the graphic is one svg element.  Whenever [get_placeholder_svg]
    returns for a label that opens no tag, the text starts with the svg
    tag carrying the width and the height that were given, ends with the
    closing svg tag, and holds each of the two exactly once. *)
Theorem placeholder_is_one_svg_element (width height : Z) (text s : string)
    (Htext : plain text)
    (Hrun : get_placeholder_svg width height text = inr s) :
  Py.startswith ("<svg width='" ++ Py.decimal width ++ "' height='" ++
                 Py.decimal height ++ "' ") s = true /\
  Py.occurrences "<svg " s = 1%nat /\
  Py.occurrences "</svg>" s = 1%nat /\
  endswith "</svg>" s = true.
Proof.
  pose proof (get_placeholder_svg_run width height text) as H.
  rewrite Hrun in H.
  destruct H as (_ & _ & h3 & h23 & w3 & w23 & _ & _ & _ & _ & ->).
  apply svg_markup_root; auto using decimal_plain, repr_float_plain.
  reflexivity.
Qed.

Lemma placeholder_is_one_svg_element_witness :
  plain "AI Image" /\
  exists s,
    get_placeholder_svg (-7) 0 "AI Image" = inr s /\
    Py.startswith "<svg width='-7' height='0' " s = true /\
    Py.occurrences "<svg " s = 1%nat /\
    Py.occurrences "</svg>" s = 1%nat /\
    endswith "</svg>" s = true.
Proof.
  assert (Hp : plain "AI Image") by reflexivity. split; [exact Hp |].
  assert (E : exists s, get_placeholder_svg (-7) 0 "AI Image" = inr s)
    by (eexists; vm_compute; reflexivity).
  destruct E as [s E]. exists s. split; [exact E |].
  exact (placeholder_is_one_svg_element (-7) 0 "AI Image" s Hp E).
Defined.

End PlaceholderMore.

Section UrlCharacters.

Import ProfessionalAssetManager.

(** [all(P(c) for c in s)] *)
Fixpoint all_chars (P : ascii -> bool) (s : string) : bool :=
  match s with
  | EmptyString => true
  | String c s' => P c && all_chars P s'
  end.

(** The characters a URL of the resolvers is expected to be made of:
    digits, lower-case letters and the punctuation of a query URL. *)
Definition url_char (c : ascii) : bool :=
  let n := nat_of_ascii c in
  is_digit c || ((97 <=? n)%nat && (n <=? 122)%nat) ||
  Py.has_char c ":/.?&=+-".

Lemma all_chars_app (P : ascii -> bool) (a b : string) :
  all_chars P (a ++ b) = all_chars P a && all_chars P b.
Proof.
  induction a as [|c a IH]; cbn [String.append all_chars]; [reflexivity |].
  now rewrite IH, andb_assoc.
Qed.

Lemma all_chars_decimal (n : Z) : all_chars url_char (Py.decimal n) = true.
Proof.
  unfold Py.decimal.
  assert (Hu : forall d, all_chars url_char (NilEmpty.string_of_uint d) = true).
  { induction d; cbn [NilEmpty.string_of_uint all_chars];
      try reflexivity; rewrite IHd; reflexivity. }
  assert (Hz : forall d, all_chars url_char (NilZero.string_of_uint d) = true).
  { intros d. destruct d; try apply Hu. reflexivity. }
  destruct (Z.to_int n); cbn [NilZero.string_of_int all_chars];
    [apply Hz | now rewrite Hz].
Qed.

(** X13: [ProfessionalAssetManager.get_ai_image] only ever returns text
    made of digits, lower-case letters and [: / . ? & = + -], in every
    world, for every index, width and height: the formatted URL and each
    fallback entry are free of spaces, quotes, upper-case letters and any
    character that would need escaping in a URL. *)
Theorem get_ai_image_url_characters (index width height : Z) (w : World) :
  exists url w',
    get_ai_image index width height w = (inr url, w') /\
    all_chars url_char url = true.
Proof.
  unfold get_ai_image, try_except.
  destruct (get_ai_image_try index width height w) as [[e|url] w1] eqn:E.
  - destruct (get_ai_image_except_run index e w1) as (url & w' & Hn & Hr).
    exists url, w'. split; [exact Hr |].
    apply nth_error_In in Hn.
    repeat (destruct Hn as [<-|Hn]; [reflexivity |]). destruct Hn.
  - exists url, w1. split; [reflexivity |].
    destruct (get_ai_image_try_run index width height w) as (c & Hc & Hok & _).
    rewrite (proj1 (Hok _ _ E)). unfold ai_url.
    repeat rewrite all_chars_app. repeat rewrite all_chars_decimal.
    assert (Hcat : all_chars url_char (Py.replace c " " "+") = true).
    { apply nth_error_In in Hc.
      repeat (destruct Hc as [<-|Hc]; [reflexivity |]). destruct Hc. }
    rewrite Hcat. reflexivity.
Qed.

(** X14: which image slots of the page get a malformed URL.  Without
    injected faults, the URL the resolver of [main.py] returns holds a
    space exactly for the indices that are 0, 1, 2 or 3 modulo 8, the four
    categories of two words; for the other four residues it holds none. *)
Theorem inline_url_space_iff (index : Z) (w : World) (Hq : faults w = []) :
  exists url w',
    AssetManager.get_ai_image index w = (inr url, w') /\
    Py.has_char " " url = (index mod 8 <? 4).
Proof.
  destruct (inline_get_ai_image_try_run index w) as (c & Hc & _ & Hrun).
  destruct (Hrun Hq) as (w' & E).
  exists (inline_ai_url c (token 1000 9999 w)), w'.
  split; [unfold AssetManager.get_ai_image, try_except; now rewrite E |].
  pose proof (Z.mod_pos_bound index 8 ltac:(lia)) as Hb.
  revert Hc. generalize (token 1000 9999 w). intros seed.
  remember (index mod 8) as k eqn:Hk. clear Hk.
  assert (Hk : k = 0 \/ k = 1 \/ k = 2 \/ k = 3 \/
               k = 4 \/ k = 5 \/ k = 6 \/ k = 7) by lia.
  unfold inline_ai_url.
  repeat (destruct Hk as [->|Hk]);
    try subst k;
    cbn [Z.to_nat Pos.to_nat Pos.iter_op Nat.add nth_error
         AssetManager.AI_CATEGORIES];
    intros [= <-];
    repeat rewrite has_char_app;
    rewrite (decimal_chars " ") by (reflexivity || discriminate);
    reflexivity.
Qed.

Lemma inline_url_space_iff_witness :
  faults (quiet (fun _ => 0)) = [] /\
  exists url w',
    AssetManager.get_ai_image 13 (quiet (fun _ => 0)) = (inr url, w') /\
    Py.has_char " " url = false.
Proof.
  split; [reflexivity |].
  exact (inline_url_space_iff 13 (quiet (fun _ => 0)) eq_refl).
Defined.

End UrlCharacters.
